(** * The tooltip service wrapper of the sample bar chart

    A shallow embedding of [src/tooltipServiceWrapper.ts]: the class
    [TooltipServiceWrapper], the three listeners [addTooltip] binds in the
    [tooltip] namespace, the gate [canDisplayTooltip] and the coordinate
    resolution of [getCoordinates], followed by the properties of the
    specification that concern them.

    Conventions of the embedding.
    - A DOM element is a reference (a node number); what the browser answers
      for it at the time of an event ([getBoundingClientRect], [clientLeft],
      [clientTop], the datum d3 bound to it) is read from the [document] of
      the current world.
    - The numbers of positions (client coordinates, bounding boxes, client
      offsets, touch points) are binary64 numbers as in JavaScript: Rocq's
      primitive [float], whose subtraction is the IEEE 754 one. Button
      masks, time stamps and the touch delay are integers ([Z]).
      [undefined] and [null] are [None].
    - The host tooltip service and the caller's two callbacks are observed
      through a trace of calls, in program order.
    - A closure registered with [selection.on] is a [Listener]: the code of
      the closure together with the variables it captured. *)

From Stdlib Require Import ZArith Bool Lia.
From Stdlib Require Import Floats.PrimFloat.
From stdpp Require Import gmap strings list.

Local Open Scope string_scope.
Local Open Scope list_scope.
Local Open Scope Z_scope.

Section Wrapper.

(** The type parameter [T] of [addTooltip<T>], and the two types of the
    Power BI API the file uses without declaring them. *)
Variables (T VisualTooltipDataItem ISelectionId : Type).

(** ** The browser side *)

Definition Element := nat.

Record ClientRect := { left : float; top : float }.

Record Node := {
  getBoundingClientRect : ClientRect;
  clientLeft : float;
  clientTop : float;
  datum : T
}.

(** An event as the listeners see it in [d3.event]. [buttons] is [None]
    where the browser does not report button state; [sourceEvent] is the
    event a d3 behaviour wrapped, if any. *)
#[warnings="-register-all"]
Inductive Event := MkEvent {
  type : string;
  target : Element;
  clientX : float;
  clientY : float;
  buttons : option Z;
  timeStamp : Z;
  sourceEvent : option Event
}.

(** [d3.touches(container)]: the touch points of the current event relative
    to [container]; a function of the rendering library. *)
Variable d3_touches : Element -> Event -> list (list float).

(** ** The interfaces of the file *)

Record TooltipEventArgs := {
  data : T;
  coordinates : option (list float);
  elementCoordinates : option (list float);
  context : Element;
  isTouchEvent : bool
}.

(** The argument of the host's [show] and [move]. *)
Record TooltipRequest := {
  req_coordinates : option (list float);
  req_isTouchEvent : bool;
  dataItems : option (list VisualTooltipDataItem);
  identities : list ISelectionId
}.

(** The argument of the host's [hide]. *)
Record TooltipHideOptions := {
  hide_isTouchEvent : bool;
  immediately : bool
}.

Record ITooltipService := { enabled : bool }.

(** The two delegates given to [addTooltip]. *)
Record Delegates := {
  getTooltipInfoDelegate : TooltipEventArgs -> option (list VisualTooltipDataItem);
  getDataPointIdentity : TooltipEventArgs -> option ISelectionId
}.

(** What the wrapper does to the outside, in order. *)
Inductive Call :=
  | host_show (r : TooltipRequest)
  | host_move (r : TooltipRequest)
  | host_hide (o : TooltipHideOptions)
  | asked_info (a : TooltipEventArgs)
  | asked_identity (a : TooltipEventArgs).

(** The three closures of [addTooltip], with what they capture. *)
Inductive Listener :=
  | mouseover_tooltip (rootNode : Element) (d : Delegates)
  | mouseout_tooltip
  | mousemove_tooltip (rootNode : Element) (d : Delegates)
                      (reloadTooltipDataOnMouseMove : option bool).

(** ** The class *)

Record TooltipServiceWrapper := {
  handleTouchTimeoutId : option Z;
  rootElement : Element;
  handleTouchDelay : Z
}.

(** The wrapper object, the page it lives in, the listeners d3 holds for
    each element and name, the host service and the trace. *)
Record World := {
  this : TooltipServiceWrapper;
  document : Element -> Node;
  listeners : gmap (Element * string) Listener;
  visualHostTooltipService : ITooltipService;
  trace : list Call
}.

Definition DefaultHandleTouchDelay : Z := 1000.

(** The constructor assigns three of the four fields. *)
Definition createTooltipServiceWrapper
    (rootElement : Element) (handleTouchDelay : option Z) : TooltipServiceWrapper :=
  {| handleTouchTimeoutId := None;
     rootElement := rootElement;
     handleTouchDelay := default DefaultHandleTouchDelay handleTouchDelay |}.

(** ** A state monad for the methods *)

Definition Eff (A : Type) : Type := World -> A * World.

Definition ret {A} (a : A) : Eff A := fun w => (a, w).

Definition bind {A B} (k : A -> Eff B) (m : Eff A) : Eff B :=
  fun w => let (a, w') := m w in k a w'.

#[local] Instance Eff_ret : MRet Eff := @ret.
#[local] Instance Eff_bind : MBind Eff := @bind.

Definition exec {A} (m : Eff A) (w : World) : World := snd (m w).

Definition get_this : Eff TooltipServiceWrapper := fun w => (this w, w).

Definition get_document : Eff (Element -> Node) := fun w => (document w, w).

Definition emit (c : Call) : Eff unit := fun w =>
  (tt, {| this := this w; document := document w; listeners := listeners w;
          visualHostTooltipService := visualHostTooltipService w;
          trace := trace w ++ [c] |}).

Definition service_enabled : Eff bool :=
  fun w => (enabled (visualHostTooltipService w), w).

Definition call_info (d : Delegates) (a : TooltipEventArgs)
    : Eff (option (list VisualTooltipDataItem)) :=
  emit (asked_info a);; ret (getTooltipInfoDelegate d a).

Definition call_identity (d : Delegates) (a : TooltipEventArgs)
    : Eff (option ISelectionId) :=
  emit (asked_identity a);; ret (getDataPointIdentity d a).

(** [selection.on(name, listener)]: on every element of the selection the
    listener of that name is set, replacing the one that was there. *)
Definition selection_on (selection : list Element) (name : string) (l : Listener)
    : Eff unit := fun w =>
  (tt, {| this := this w; document := document w;
          listeners := foldr (fun el m => <[(el, name) := l]> m) (listeners w) selection;
          visualHostTooltipService := visualHostTooltipService w;
          trace := trace w |}).

(** ** The private methods *)

(** [canDisplayTooltip], lines 129-142. *)
Definition canDisplayTooltip (this : TooltipServiceWrapper) (d3Event : Event) : bool :=
  let canDisplay := true in
  let canDisplay :=
    match buttons d3Event with
    | Some b =>
        let hasMouseButtonPressed := negb (b =? 0) in
        negb hasMouseButtonPressed
    | None => canDisplay
    end in
  canDisplay && match handleTouchTimeoutId this with None => true | Some _ => false end.

(** [while (s = e.sourceEvent) e = s;], line 155. *)
Fixpoint d3_eventSource (e : Event) : Event :=
  match e with
  | MkEvent _ _ _ _ _ _ (Some s) => d3_eventSource s
  | MkEvent _ _ _ _ _ _ None => e
  end.

(** [getCoordinates], lines 144-167. *)
Definition getCoordinates (doc : Element -> Node) (d3_event : Event)
    (rootNode : Element) (isPointerEvent : bool) : option (list float) :=
  if isPointerEvent then
    let e := d3_eventSource d3_event in
    let rect := getBoundingClientRect (doc rootNode) in
    Some [clientX e - left rect - clientLeft (doc rootNode);
          clientY e - top rect - clientTop (doc rootNode)]%float
  else
    match d3_touches rootNode d3_event with
    | first :: _ => Some first
    | [] => None
    end.

(** [makeTooltipEventArgs], lines 112-127. The method always returns the
    object it built; the result is an option because its callers test it. *)
Definition makeTooltipEventArgs (d3_event : Event)
    (rootNode : Element) (isPointerEvent isTouchEvent : bool)
    : Eff (option TooltipEventArgs) :=
  doc ← get_document;
  let target := target d3_event in
  let data := datum (doc target) in
  let mouseCoordinates := getCoordinates doc d3_event rootNode isPointerEvent in
  let elementCoordinates := getCoordinates doc d3_event target isPointerEvent in
  ret (Some {| data := data;
               coordinates := mouseCoordinates;
               elementCoordinates := elementCoordinates;
               context := target;
               isTouchEvent := isTouchEvent |}).

(** ** The listeners and the public methods *)

Definition identities_of (selectionId : option ISelectionId) : list ISelectionId :=
  match selectionId with Some s => [s] | None => [] end.

(** The closure bound to [mouseover.tooltip], lines 51-72. *)
Definition on_mouseover (rootNode : Element) (d : Delegates) (d3_event : Event)
    : Eff unit :=
  self ← get_this;
  if negb (canDisplayTooltip self d3_event) then ret tt else
  tooltipEventArgs ← makeTooltipEventArgs d3_event rootNode true false;
  match tooltipEventArgs with
  | None => ret tt
  | Some args =>
      tooltipInfo ← call_info d args;
      match tooltipInfo with
      | None => ret tt
      | Some info =>
          selectionId ← call_identity d args;
          emit (host_show {| req_coordinates := coordinates args;
                             req_isTouchEvent := false;
                             dataItems := Some info;
                             identities := identities_of selectionId |})
      end
  end.

(** Lines 57-71 of the mouse-over closure as a function of its local
    [tooltipEventArgs]: what the closure does once the arguments are
    built. *)
Definition mouseover_with_args (d : Delegates)
    (tooltipEventArgs : option TooltipEventArgs) : Eff unit :=
  match tooltipEventArgs with
  | None => ret tt
  | Some args =>
      tooltipInfo ← call_info d args;
      match tooltipInfo with
      | None => ret tt
      | Some info =>
          selectionId ← call_identity d args;
          emit (host_show {| req_coordinates := coordinates args;
                             req_isTouchEvent := false;
                             dataItems := Some info;
                             identities := identities_of selectionId |})
      end
  end.

(** The closure bound to [mouseout.tooltip], lines 74-79. *)
Definition on_mouseout : Eff unit :=
  emit (host_hide {| hide_isTouchEvent := false; immediately := false |}).

(** The closure bound to [mousemove.tooltip], lines 81-105. The local
    [tooltipInfo] stays undefined unless the reload flag is truthy. *)
Definition on_mousemove (rootNode : Element) (d : Delegates)
    (reloadTooltipDataOnMouseMove : option bool) (d3_event : Event) : Eff unit :=
  self ← get_this;
  if negb (canDisplayTooltip self d3_event) then ret tt else
  tooltipEventArgs ← makeTooltipEventArgs d3_event rootNode true false;
  match tooltipEventArgs with
  | None => ret tt
  | Some args =>
      let finish (tooltipInfo : option (list VisualTooltipDataItem)) :=
        selectionId ← call_identity d args;
        emit (host_move {| req_coordinates := coordinates args;
                           req_isTouchEvent := false;
                           dataItems := tooltipInfo;
                           identities := identities_of selectionId |}) in
      if default false reloadTooltipDataOnMouseMove then
        tooltipInfo ← call_info d args;
        match tooltipInfo with
        | None => ret tt
        | Some info => finish (Some info)
        end
      else finish None
  end.

(** [addTooltip], lines 38-106. An absent selection is [None]; a selection
    that holds no element is [Some []]. *)
Definition addTooltip (selection : option (list Element)) (d : Delegates)
    (reloadTooltipDataOnMouseMove : option bool) : Eff unit :=
  match selection with
  | None => ret tt
  | Some sel =>
      on ← service_enabled;
      if negb on then ret tt else
      self ← get_this;
      let rootNode := rootElement self in
      selection_on sel "mouseover.tooltip" (mouseover_tooltip rootNode d);;
      selection_on sel "mouseout.tooltip" mouseout_tooltip;;
      selection_on sel "mousemove.tooltip"
        (mousemove_tooltip rootNode d reloadTooltipDataOnMouseMove)
  end.

(** [hide], lines 108-110. *)
Definition hide : Eff unit :=
  emit (host_hide {| hide_isTouchEvent := false; immediately := true |}).

(** ** Events reaching the page *)

Definition runListener (l : Listener) (d3_event : Event) : Eff unit :=
  match l with
  | mouseover_tooltip rootNode d => on_mouseover rootNode d d3_event
  | mouseout_tooltip => on_mouseout
  | mousemove_tooltip rootNode d reload => on_mousemove rootNode d reload d3_event
  end.

(** The browser delivers [e] to [node] (its target or an ancestor the event
    bubbles to): the listener bound there for the type of [e] in the
    [tooltip] namespace runs with [d3.event = e]. *)
Definition dispatchEvent (node : Element) (e : Event) : Eff unit := fun w =>
  match listeners w !! (node, type e +:+ ".tooltip") with
  | Some l => runListener l e w
  | None => (tt, w)
  end.

(** Everything that can happen to a wrapper and its page. *)
Inductive Op :=
  | op_addTooltip (selection : option (list Element)) (d : Delegates)
                  (reloadTooltipDataOnMouseMove : option bool)
  | op_hide
  | op_dispatch (node : Element) (e : Event)
  | op_layout (doc : Element -> Node)
  | op_service (s : ITooltipService).

Definition step (w : World) (o : Op) : World :=
  match o with
  | op_addTooltip selection d reload => exec (addTooltip selection d reload) w
  | op_hide => exec hide w
  | op_dispatch node e => exec (dispatchEvent node e) w
  | op_layout doc =>
      {| this := this w; document := doc; listeners := listeners w;
         visualHostTooltipService := visualHostTooltipService w; trace := trace w |}
  | op_service s =>
      {| this := this w; document := document w; listeners := listeners w;
         visualHostTooltipService := s; trace := trace w |}
  end.

Definition run (ops : list Op) (w : World) : World := fold_left step ops w.

(** The world right after [createTooltipServiceWrapper]. *)
Definition newWorld (doc : Element -> Node) (tooltipService : ITooltipService)
    (rootElement : Element) (handleTouchDelay : option Z) : World :=
  {| this := createTooltipServiceWrapper rootElement handleTouchDelay;
     document := doc;
     listeners := ∅;
     visualHostTooltipService := tooltipService;
     trace := [] |}.

Inductive reachable : World -> Prop :=
  | reachable_new doc tooltipService rootElement handleTouchDelay :
      reachable (newWorld doc tooltipService rootElement handleTouchDelay)
  | reachable_step w o : reachable w -> reachable (step w o).

(** The chain of wrapped events, as a relation: [r] is the root source of
    [e] when following [sourceEvent] from [e] ends at [r]. *)
Inductive root_source : Event -> Event -> Prop :=
  | root_here e : sourceEvent e = None -> root_source e e
  | root_below e s r : sourceEvent e = Some s -> root_source s r -> root_source e r.

(** The calls a method added to the trace of [w], seen from the world [w']
    it left. *)
Definition added (w w' : World) : list Call := drop (length (trace w)) (trace w').

(** A listener only ever appends to the trace. *)
Definition only_trace (w w' : World) : Prop :=
  this w' = this w /\ document w' = document w /\ listeners w' = listeners w /\
  visualHostTooltipService w' = visualHostTooltipService w.

(** Each closure sits under its own name, and nowhere else. *)
Definition name_of (l : Listener) : string :=
  match l with
  | mouseover_tooltip _ _ => "mouseover.tooltip"
  | mouseout_tooltip => "mouseout.tooltip"
  | mousemove_tooltip _ _ _ => "mousemove.tooltip"
  end.

Definition well_bound (w : World) : Prop :=
  forall node name l, listeners w !! (node, name) = Some l -> name = name_of l.

(** The same world with another touch delay in the wrapper object. *)
Definition with_delay (z : Z) (w : World) : World :=
  {| this := {| handleTouchTimeoutId := handleTouchTimeoutId (this w);
                rootElement := rootElement (this w);
                handleTouchDelay := z |};
     document := document w; listeners := listeners w;
     visualHostTooltipService := visualHostTooltipService w;
     trace := trace w |}.

(** The calls that reach the host service, as opposed to the delegates. *)
Definition is_host_call (c : Call) : bool :=
  match c with
  | host_show _ | host_move _ | host_hide _ => true
  | asked_info _ | asked_identity _ => false
  end.

(** The touch flag a call carries, in its request or in its arguments. *)
Definition touch_flag (c : Call) : bool :=
  match c with
  | host_show r | host_move r => req_isTouchEvent r
  | host_hide o => hide_isTouchEvent o
  | asked_info a | asked_identity a => isTouchEvent a
  end.

(** What every call of the wrapper looks like: never flagged as touch; a
    request has a position of two numbers and at most one identity; a show
    request has content. *)
Definition complete_request (r : TooltipRequest) : Prop :=
  (exists x y, req_coordinates r = Some [x; y]) /\
  (length (identities r) <= 1)%nat.

Definition well_formed_call (c : Call) : Prop :=
  touch_flag c = false /\
  match c with
  | host_show r => complete_request r /\ exists items, dataItems r = Some items
  | host_move r => complete_request r
  | host_hide _ | asked_info _ | asked_identity _ => True
  end.

(** The root element a closure captured, for the two that capture one. *)
Definition captured_root (l : Listener) : option Element :=
  match l with
  | mouseover_tooltip rootNode _ | mousemove_tooltip rootNode _ _ => Some rootNode
  | mouseout_tooltip => None
  end.

(** A mouse event travels from its target up through the ancestors: the
    listener bound on each element of the path runs in turn, with the same
    [d3.event]. *)
Definition propagate (path : list Element) (e : Event) (w : World) : World :=
  fold_left (fun w node => exec (dispatchEvent node e) w) path w.

(** ** A small page to run the wrapper on

    One bar (element 1) inside the root (element 0); every element sits at
    viewport offset (100, 50) with no client offsets. *)

Definition exampleNode (x : T) : Node :=
  {| getBoundingClientRect := {| left := 100%float; top := 50%float |};
     clientLeft := 0%float; clientTop := 0%float; datum := x |}.

Definition examplePage (x : T) : Element -> Node := fun _ => exampleNode x.

Definition exampleDelegates (info : option (list VisualTooltipDataItem))
    (id : option ISelectionId) : Delegates :=
  {| getTooltipInfoDelegate := fun _ => info;
     getDataPointIdentity := fun _ => id |}.

(** An event on the bar at client position (130, 90). *)
Definition exampleEvent (ty : string) (time : Z) (btn : option Z) : Event :=
  MkEvent ty 1%nat 130%float 90%float btn time None.

(** A fresh wrapper on the page, then one [addTooltip] on the bar. *)
Definition exampleWorld (x : T) (d : Delegates) (reload : option bool) : World :=
  exec (addTooltip (Some [1%nat]) d reload)
       (newWorld (examplePage x) {| enabled := true |} 0%nat None).

(** ** Unfolding the monad *)

Ltac eff :=
  cbv [mbind mret Eff_bind Eff_ret bind ret exec emit get_this get_document
       service_enabled call_info call_identity selection_on].

Lemma added_app (w w' : World) (cs : list Call) :
  trace w' = trace w ++ cs -> added w w' = cs.
Proof. intros E. unfold added. rewrite E. apply drop_app_length. Qed.

Lemma d3_eventSource_root : forall e : Event, root_source e (d3_eventSource e).
Proof.
  fix IH 1. intros [ty tg x y b ts [s|]]; simpl.
  - apply root_below with s; [reflexivity | apply IH].
  - apply root_here. reflexivity.
Qed.

Lemma root_source_unique (e r r' : Event) :
  root_source e r -> root_source e r' -> r = r'.
Proof.
  intros H. revert r'. induction H as [e He|e s r He Hs IH]; intros r' H'.
  - destruct H' as [e _|e s' r' He' _]; [reflexivity | congruence].
  - destruct H' as [e He'|e s' r' He' Hs']; [congruence|].
    apply IH. replace s with s' by congruence. exact Hs'.
Qed.

(** What [selection.on] leaves in the table of listeners. *)
Lemma selection_on_bound (sel : list Element) (name : string) (l : Listener)
    (w : World) (node : Element) :
  node ∈ sel -> listeners (exec (selection_on sel name l) w) !! (node, name) = Some l.
Proof.
  eff. simpl. induction sel as [|el sel IH]; intros Hin.
  - inversion Hin.
  - simpl. destruct (decide (el = node)) as [->|Hne].
    + apply lookup_insert_eq.
    + rewrite lookup_insert_ne by congruence.
      apply IH. inversion Hin; subst; [contradiction|assumption].
Qed.

Lemma selection_on_other (sel : list Element) (name name' : string) (l : Listener)
    (w : World) (node : Element) :
  name <> name' ->
  listeners (exec (selection_on sel name l) w) !! (node, name') =
  listeners w !! (node, name').
Proof.
  intros Hne. eff. simpl. induction sel as [|el sel IH]; [reflexivity|].
  simpl. rewrite lookup_insert_ne by congruence. exact IH.
Qed.

(** With a selection and an enabled service, [addTooltip] is its three
    calls of [selection.on], which leave the three closures on every
    element of the selection. *)
Lemma addTooltip_enabled (sel : list Element) (d : Delegates) (reload : option bool)
    (w : World) :
  enabled (visualHostTooltipService w) = true ->
  exec (addTooltip (Some sel) d reload) w =
  exec (selection_on sel "mousemove.tooltip"
          (mousemove_tooltip (rootElement (this w)) d reload))
    (exec (selection_on sel "mouseout.tooltip" mouseout_tooltip)
       (exec (selection_on sel "mouseover.tooltip"
                (mouseover_tooltip (rootElement (this w)) d)) w)).
Proof.
  intros Hen.
  unfold addTooltip, exec, mbind, Eff_bind, bind, service_enabled, get_this.
  rewrite Hen. reflexivity.
Qed.

Lemma addTooltip_binds (sel : list Element) (d : Delegates) (reload : option bool)
    (w : World) (node : Element) :
  enabled (visualHostTooltipService w) = true -> node ∈ sel ->
  listeners (exec (addTooltip (Some sel) d reload) w) !! (node, "mouseover.tooltip") =
    Some (mouseover_tooltip (rootElement (this w)) d) /\
  listeners (exec (addTooltip (Some sel) d reload) w) !! (node, "mouseout.tooltip") =
    Some mouseout_tooltip /\
  listeners (exec (addTooltip (Some sel) d reload) w) !! (node, "mousemove.tooltip") =
    Some (mousemove_tooltip (rootElement (this w)) d reload).
Proof.
  intros Hen Hin. rewrite (addTooltip_enabled sel d reload w Hen).
  split; [|split].
  - rewrite selection_on_other by discriminate.
    rewrite selection_on_other by discriminate.
    apply selection_on_bound. exact Hin.
  - rewrite selection_on_other by discriminate.
    apply selection_on_bound. exact Hin.
  - apply selection_on_bound. exact Hin.
Qed.

(** A bound listener is what [dispatchEvent] runs. *)
Lemma dispatchEvent_bound (node : Element) (e : Event) (ty : string) (l : Listener)
    (w : World) :
  type e = ty -> listeners w !! (node, ty +:+ ".tooltip") = Some l ->
  dispatchEvent node e w = runListener l e w.
Proof. intros <- H. unfold dispatchEvent. rewrite H. reflexivity. Qed.

Lemma exec_dispatchEvent_bound (node : Element) (e : Event) (ty : string)
    (l : Listener) (w : World) :
  type e = ty -> listeners w !! (node, ty +:+ ".tooltip") = Some l ->
  exec (dispatchEvent node e) w = exec (runListener l e) w.
Proof. intros Hty H. unfold exec. f_equal. exact (dispatchEvent_bound _ _ _ _ _ Hty H). Qed.

(** ** What one run of a listener does *)

(** The arguments [makeTooltipEventArgs] builds never fail to exist, and
    the world is only read. *)
Lemma makeTooltipEventArgs_run (e : Event) (rootNode : Element) (p t : bool)
    (w : World) :
  makeTooltipEventArgs e rootNode p t w =
    (Some {| data := datum (document w (target e));
             coordinates := getCoordinates (document w) e rootNode p;
             elementCoordinates := getCoordinates (document w) e (target e) p;
             context := target e;
             isTouchEvent := t |}, w).
Proof. reflexivity. Qed.

(** Touch-driven resolution with no touch point leaves both coordinates
    absent; the arguments object is built all the same. No listener of
    [addTooltip] resolves this way. *)
Lemma makeTooltipEventArgs_no_touch_point (e : Event) (rootNode : Element)
    (t : bool) (w : World) :
  d3_touches rootNode e = [] -> d3_touches (target e) e = [] ->
  exists args, fst (makeTooltipEventArgs e rootNode false t w) = Some args /\
               coordinates args = None /\ elementCoordinates args = None.
Proof.
  intros H1 H2. rewrite makeTooltipEventArgs_run. eexists. split; [reflexivity|].
  unfold getCoordinates. simpl. rewrite H1, H2. split; reflexivity.
Qed.

Lemma on_mouseover_run (rootNode : Element) (d : Delegates) (e : Event) (w : World) :
  forall args, fst (makeTooltipEventArgs e rootNode true false w) = Some args ->
  only_trace w (exec (on_mouseover rootNode d e) w) /\
  trace (exec (on_mouseover rootNode d e) w) =
    trace w ++
    (if canDisplayTooltip (this w) e then
       asked_info args ::
       match getTooltipInfoDelegate d args with
       | None => []
       | Some info =>
           [asked_identity args;
            host_show {| req_coordinates := coordinates args;
                         req_isTouchEvent := false;
                         dataItems := Some info;
                         identities :=
                           match getDataPointIdentity d args with
                           | Some s => [s]
                           | None => []
                           end |}]
       end
     else []).
Proof.
  intros args Hargs. rewrite makeTooltipEventArgs_run in Hargs.
  injection Hargs as <-. unfold on_mouseover, only_trace. eff.
  destruct (canDisplayTooltip (this w) e); simpl.
  - match goal with |- context [getTooltipInfoDelegate d ?a] =>
      destruct (getTooltipInfoDelegate d a) as [info|] end; simpl.
    + rewrite <- !app_assoc. simpl.
      match goal with |- context [getDataPointIdentity d ?a] =>
        destruct (getDataPointIdentity d a) end; repeat split.
    + repeat split.
  - rewrite app_nil_r. repeat split.
Qed.

Lemma on_mousemove_run (rootNode : Element) (d : Delegates) (reload : option bool)
    (e : Event) (w : World) :
  forall args, fst (makeTooltipEventArgs e rootNode true false w) = Some args ->
  only_trace w (exec (on_mousemove rootNode d reload e) w) /\
  trace (exec (on_mousemove rootNode d reload e) w) =
    trace w ++
    (if canDisplayTooltip (this w) e then
       let move (items : option (list VisualTooltipDataItem)) :=
         [asked_identity args;
          host_move {| req_coordinates := coordinates args;
                       req_isTouchEvent := false;
                       dataItems := items;
                       identities :=
                         match getDataPointIdentity d args with
                         | Some s => [s]
                         | None => []
                         end |}] in
       match reload with
       | Some true =>
           asked_info args ::
           match getTooltipInfoDelegate d args with
           | None => []
           | Some info => move (Some info)
           end
       | _ => move None
       end
     else []).
Proof.
  intros args Hargs. rewrite makeTooltipEventArgs_run in Hargs.
  injection Hargs as <-. unfold on_mousemove, only_trace. eff.
  destruct (canDisplayTooltip (this w) e); simpl.
  - destruct reload as [[|]|]; simpl.
    + match goal with |- context [getTooltipInfoDelegate d ?a] =>
        destruct (getTooltipInfoDelegate d a) as [info|] end; simpl.
      * rewrite <- !app_assoc. simpl.
        match goal with |- context [getDataPointIdentity d ?a] =>
          destruct (getDataPointIdentity d a) end; repeat split.
      * repeat split.
    + rewrite <- !app_assoc. simpl.
      match goal with |- context [getDataPointIdentity d ?a] =>
        destruct (getDataPointIdentity d a) end; repeat split.
    + rewrite <- !app_assoc. simpl.
      match goal with |- context [getDataPointIdentity d ?a] =>
        destruct (getDataPointIdentity d a) end; repeat split.
  - rewrite app_nil_r. repeat split.
Qed.

Lemma on_mouseout_run (w : World) :
  only_trace w (exec on_mouseout w) /\
  trace (exec on_mouseout w) =
    trace w ++ [host_hide {| hide_isTouchEvent := false; immediately := false |}].
Proof. repeat split. Qed.

Lemma runListener_run (l : Listener) (e : Event) (w : World) :
  only_trace w (exec (runListener l e) w) /\
  exists cs, trace (exec (runListener l e) w) = trace w ++ cs.
Proof.
  destruct l as [rootNode d| |rootNode d reload]; simpl.
  - destruct (on_mouseover_run rootNode d e w _ eq_refl) as [H1 H2]. eauto.
  - destruct (on_mouseout_run w) as [H1 H2]. eauto.
  - destruct (on_mousemove_run rootNode d reload e w _ eq_refl) as [H1 H2]. eauto.
Qed.

(** ** What every operation preserves *)

(** No operation writes a field of the wrapper object. *)
Lemma step_keeps_this (w : World) (o : Op) : this (step w o) = this w.
Proof.
  destruct o as [selection d reload| |node e|doc|s]; simpl; try reflexivity.
  - destruct selection as [sel|]; [|reflexivity].
    destruct (enabled (visualHostTooltipService w)) eqn:En.
    + rewrite addTooltip_enabled by exact En. reflexivity.
    + unfold addTooltip, exec, mbind, Eff_bind, bind, service_enabled.
      rewrite En. reflexivity.
  - unfold exec, dispatchEvent.
    destruct (listeners w !! (node, type e +:+ ".tooltip")) as [l|]; [|reflexivity].
    apply (runListener_run l e w).
Qed.

Lemma reachable_run (ops : list Op) (w : World) : reachable w -> reachable (run ops w).
Proof.
  revert w. induction ops as [|o ops IH]; intros w H; simpl.
  - exact H.
  - apply IH. apply reachable_step. exact H.
Qed.

Lemma selection_on_well_bound (sel : list Element) (l : Listener) (w : World) :
  well_bound w -> well_bound (exec (selection_on sel (name_of l) l) w).
Proof.
  intros Hw node name l'. unfold exec, selection_on. simpl.
  induction sel as [|el sel IH]; simpl.
  - apply Hw.
  - destruct (decide ((el, name_of l) = (node, name))) as [E|N].
    + rewrite E, lookup_insert_eq. injection E as _ <-. congruence.
    + rewrite lookup_insert_ne by exact N. exact IH.
Qed.

Lemma reachable_well_bound (w : World) : reachable w -> well_bound w.
Proof.
  induction 1 as [doc svc root delay|w o _ IH].
  - intros node name l. simpl. rewrite lookup_empty. discriminate.
  - destruct o as [selection d reload| |node e|doc|s]; simpl; try exact IH.
    + destruct selection as [sel|]; [|exact IH].
      destruct (enabled (visualHostTooltipService w)) eqn:En.
      * rewrite addTooltip_enabled by exact En.
        apply (selection_on_well_bound sel (mousemove_tooltip _ d reload)).
        apply (selection_on_well_bound sel mouseout_tooltip).
        apply (selection_on_well_bound sel (mouseover_tooltip _ d)).
        exact IH.
      * unfold addTooltip, exec, mbind, Eff_bind, bind, service_enabled.
        rewrite En. exact IH.
    + unfold exec, dispatchEvent.
      destruct (listeners w !! (node, type e +:+ ".tooltip")) as [l|]; [|exact IH].
      destruct (runListener_run l e w) as [(_ & _ & Hl & _) _].
      intros n name l'. unfold exec in Hl. rewrite Hl. apply IH.
Qed.

(** No closure is bound for touch events: delivering one changes nothing. *)
Lemma touch_event_is_inert (w : World) (node : Element) (e : Event) :
  reachable w -> type e = "touchstart" \/ type e = "touchend" ->
  exec (dispatchEvent node e) w = w.
Proof.
  intros Hr Hty. unfold exec, dispatchEvent.
  destruct (listeners w !! (node, type e +:+ ".tooltip")) as [l|] eqn:El; [|reflexivity].
  apply (reachable_well_bound w Hr) in El.
  destruct Hty as [E|E]; rewrite E in El; destruct l; discriminate El.
Qed.

(** ** The gate *)

(** C5: [canDisplayTooltip] answers false exactly when the event reports a
    button state that is not zero, or the touch timer handle is not null;
    in every other case it answers true. *)
Theorem canDisplayTooltip_denies_iff (self : TooltipServiceWrapper) (e : Event) :
  (canDisplayTooltip self e = false <->
     (exists b, buttons e = Some b /\ b <> 0) \/
     (exists h, handleTouchTimeoutId self = Some h)) /\
  (canDisplayTooltip self e = true <->
     (buttons e = None \/ buttons e = Some 0) /\ handleTouchTimeoutId self = None).
Proof.
  unfold canDisplayTooltip.
  destruct (buttons e) as [b|], (handleTouchTimeoutId self) as [h|]; simpl.
  - rewrite andb_false_r. split; split.
    + intros _. right. exists h. reflexivity.
    + reflexivity.
    + discriminate.
    + intros [_ H]. discriminate H.
  - rewrite andb_true_r, negb_involutive. destruct (Z.eqb_spec b 0) as [E|N].
    + subst b. split; split.
      * discriminate.
      * intros [[x [Hx Hne]]|[x Hx]]; [|discriminate Hx].
        injection Hx as <-. contradiction Hne. reflexivity.
      * intros _. split; [right|]; reflexivity.
      * reflexivity.
    + split; split.
      * intros _. left. exists b. split; [reflexivity|exact N].
      * reflexivity.
      * discriminate.
      * intros [[Hx|Hx] _]; [discriminate Hx|].
        injection Hx as ->. contradiction N. reflexivity.
  - split; split.
    + intros _. right. exists h. reflexivity.
    + reflexivity.
    + discriminate.
    + intros [_ H]. discriminate H.
  - split; split.
    + discriminate.
    + intros [[x [Hx _]]|[x Hx]]; discriminate Hx.
    + intros _. split; [left|]; reflexivity.
    + reflexivity.
Qed.

Lemma reachable_handle_null (w : World) :
  reachable w -> handleTouchTimeoutId (this w) = None.
Proof.
  induction 1 as [doc svc root delay|w o _ IH].
  - reflexivity.
  - rewrite step_keeps_this. exact IH.
Qed.

Lemma gate_with_null_handle (self : TooltipServiceWrapper) (e : Event) :
  handleTouchTimeoutId self = None ->
  canDisplayTooltip self e = match buttons e with Some b => b =? 0 | None => true end.
Proof.
  intros Hnull. unfold canDisplayTooltip. rewrite Hnull.
  destruct (buttons e) as [b|]; simpl; [|reflexivity].
  rewrite andb_true_r. apply negb_involutive.
Qed.

(** C3: in every world reachable from the constructor, the handle
    [handleTouchTimeoutId] is still null: no operation assigns it. The gate
    then decides on the button state of the event alone. *)
Theorem handleTouchTimeoutId_stays_null (w : World) :
  reachable w ->
  handleTouchTimeoutId (this w) = None /\
  (forall o, handleTouchTimeoutId (this (step w o)) = None) /\
  (forall e, canDisplayTooltip (this w) e =
             match buttons e with Some b => b =? 0 | None => true end).
Proof.
  intros Hr. pose proof (reachable_handle_null w Hr) as Hnull.
  split; [exact Hnull|]. split.
  - intros o. rewrite step_keeps_this. exact Hnull.
  - intros e. apply gate_with_null_handle. exact Hnull.
Qed.

(** ** Touch, then mouse *)

(** After a touch-start and a touch-end, a mouse-over that reports no
    pressed button passes the gate however soon it comes, and the tooltip
    is shown when the info delegate has content. *)
Lemma mouseover_after_touch_shows
    (w : World) (node rootNode : Element) (d : Delegates) (ts te mo : Event) :
  reachable w ->
  type ts = "touchstart" -> type te = "touchend" -> type mo = "mouseover" ->
  0 <= timeStamp mo - timeStamp te < handleTouchDelay (this w) ->
  listeners w !! (node, "mouseover.tooltip") = Some (mouseover_tooltip rootNode d) ->
  buttons mo = None \/ buttons mo = Some 0 ->
  (forall a, getTooltipInfoDelegate d a <> None) ->
  exists r,
    host_show r ∈
      added w (run [op_dispatch node ts; op_dispatch node te; op_dispatch node mo] w).
Proof.
  intros Hr Hts Hte Hmo _ Hb Hbtn Hinfo. simpl.
  rewrite (touch_event_is_inert w node ts Hr (or_introl Hts)).
  rewrite (touch_event_is_inert w node te Hr (or_intror Hte)).
  rewrite (exec_dispatchEvent_bound node mo "mouseover" _ w Hmo Hb). simpl.
  destruct (on_mouseover_run rootNode d mo w _ eq_refl) as [_ Htr].
  rewrite (added_app _ _ _ Htr).
  rewrite (gate_with_null_handle _ mo (reachable_handle_null w Hr)).
  assert (Hg : match buttons mo with Some b => b =? 0 | None => true end = true)
    by (destruct Hbtn as [-> | ->]; reflexivity).
  rewrite Hg.
  match goal with |- context [getTooltipInfoDelegate d ?a] =>
    pose proof (Hinfo a) as Ha; destruct (getTooltipInfoDelegate d a) as [info|] end;
    [|contradiction Ha; reflexivity].
  eexists. apply elem_of_cons. right. apply elem_of_cons. right.
  apply list_elem_of_singleton. reflexivity.
Qed.

(** ** The mouse-over listener *)

(** The mouse-over closure is its gate, the building of the arguments and
    then [mouseover_with_args]. *)
Lemma on_mouseover_with_args (rootNode : Element) (d : Delegates) (e : Event) :
  on_mouseover rootNode d e =
    (self ← get_this;
     if negb (canDisplayTooltip self e) then ret tt else
     tooltipEventArgs ← makeTooltipEventArgs e rootNode true false;
     mouseover_with_args d tooltipEventArgs).
Proof. reflexivity. Qed.


(** C8: when the info delegate answers null on a mouse-over, the host's
    show is not called on that event (nor is move, nor the identity
    delegate asked). *)
Theorem mouseover_null_info_never_shows
    (w : World) (node rootNode : Element) (d : Delegates) (e : Event) :
  type e = "mouseover" ->
  listeners w !! (node, "mouseover.tooltip") = Some (mouseover_tooltip rootNode d) ->
  (forall args, fst (makeTooltipEventArgs e rootNode true false w) = Some args ->
                getTooltipInfoDelegate d args = None) ->
  forall c, c ∈ added w (exec (dispatchEvent node e) w) ->
            exists a, c = asked_info a.
Proof.
  intros Hty Hb Hnull c Hc.
  rewrite (exec_dispatchEvent_bound node e "mouseover" _ w Hty Hb) in Hc. simpl in Hc.
  destruct (on_mouseover_run rootNode d e w _ eq_refl) as [_ Htr].
  rewrite (added_app _ _ _ Htr) in Hc.
  rewrite (Hnull _ eq_refl) in Hc.
  destruct (canDisplayTooltip (this w) e); [|inversion Hc].
  apply list_elem_of_singleton in Hc as ->. eexists. reflexivity.
Qed.

(** C9: every show request a mouse-over leads to carries the identities
    as a list that is present: empty when the identity delegate answers
    null, and the one identity it answers otherwise. *)
Theorem mouseover_show_identities
    (w : World) (node rootNode : Element) (d : Delegates) (e : Event)
    (r : TooltipRequest) :
  type e = "mouseover" ->
  listeners w !! (node, "mouseover.tooltip") = Some (mouseover_tooltip rootNode d) ->
  host_show r ∈ added w (exec (dispatchEvent node e) w) ->
  exists args,
    fst (makeTooltipEventArgs e rootNode true false w) = Some args /\
    (getDataPointIdentity d args = None -> identities r = []) /\
    (forall s, getDataPointIdentity d args = Some s -> identities r = [s]).
Proof.
  intros Hty Hb Hc.
  rewrite (exec_dispatchEvent_bound node e "mouseover" _ w Hty Hb) in Hc. simpl in Hc.
  destruct (on_mouseover_run rootNode d e w _ eq_refl) as [_ Htr].
  rewrite (added_app _ _ _ Htr) in Hc.
  eexists. split; [reflexivity|].
  destruct (canDisplayTooltip (this w) e); [|inversion Hc].
  apply elem_of_cons in Hc as [Hc|Hc]; [discriminate Hc|].
  match type of Hc with context [getTooltipInfoDelegate d ?a] =>
    destruct (getTooltipInfoDelegate d a) as [info|] end; [|inversion Hc].
  apply elem_of_cons in Hc as [Hc|Hc]; [discriminate Hc|].
  apply list_elem_of_singleton in Hc. injection Hc as ->. simpl.
  split.
  - intros ->. reflexivity.
  - intros s ->. reflexivity.
Qed.

(** ** The mouse-move listener *)

(** C7: a mouse-move that passes the gate, on an element attached with the
    reload flag false (or left out), resolves its own coordinates and calls
    the host's move with the data items undefined and the identities asked
    anew from the identity delegate on the arguments of this event; what
    happened before (the trace so far) plays no part. *)
Theorem mousemove_without_reload_moves
    (w : World) (node rootNode : Element) (d : Delegates) (reload : option bool)
    (e : Event) :
  type e = "mousemove" ->
  listeners w !! (node, "mousemove.tooltip") =
    Some (mousemove_tooltip rootNode d reload) ->
  reload = Some false \/ reload = None ->
  canDisplayTooltip (this w) e = true ->
  exists args xy,
    fst (makeTooltipEventArgs e rootNode true false w) = Some args /\
    coordinates args = Some xy /\
    added w (exec (dispatchEvent node e) w) =
      [asked_identity args;
       host_move {| req_coordinates := Some xy;
                    req_isTouchEvent := false;
                    dataItems := None;
                    identities := match getDataPointIdentity d args with
                                  | Some s => [s]
                                  | None => []
                                  end |}].
Proof.
  intros Hty Hb Hre Hgate.
  rewrite (exec_dispatchEvent_bound node e "mousemove" _ w Hty Hb). simpl.
  destruct (on_mousemove_run rootNode d reload e w _ eq_refl) as [_ Htr].
  rewrite (added_app _ _ _ Htr). rewrite Hgate.
  eexists. eexists. split; [reflexivity|]. split; [reflexivity|].
  destruct Hre as [-> | ->]; reflexivity.
Qed.

(** ** Coordinates *)

(** C6: for a pointer-driven event the coordinates relative to a reference
    element are the client position of the root source event, found by
    unwrapping the chain of wrapped events, minus the left/top of the
    element's bounding box, minus its client left/top offsets. With the root
    at viewport offset (100,50), no client offsets and the source event at
    client (130,90), wrapped or not, the coordinates are [30, 40]. *)
Theorem getCoordinates_pointer_formula :
  (forall (doc : Element -> Node) (e : Event) (rootNode : Element),
     exists r, root_source e r /\
       (forall r', root_source e r' -> r' = r) /\
       getCoordinates doc e rootNode true =
         Some [clientX r - left (getBoundingClientRect (doc rootNode))
                 - clientLeft (doc rootNode);
               clientY r - top (getBoundingClientRect (doc rootNode))
                 - clientTop (doc rootNode)]%float) /\
  (forall (x : T) (ty : string) (time : Z) (btn : option Z),
     getCoordinates (examplePage x) (exampleEvent ty time btn) 0%nat true
       = Some [30; 40]%float /\
     getCoordinates (examplePage x)
       (MkEvent "drag" 1%nat 0%float 0%float None time
          (Some (exampleEvent ty time btn)))
       0%nat true = Some [30; 40]%float).
Proof.
  split.
  - intros doc e rootNode. exists (d3_eventSource e).
    pose proof (d3_eventSource_root e) as Hr.
    split; [exact Hr|]. split; [|reflexivity].
    intros r' Hr'. exact (root_source_unique e r' _ Hr' Hr).
  - intros x ty time btn. split; reflexivity.
Qed.

(** ** The public methods *)

(** C10: [hide] calls the host's hide with immediately = true and
    isTouchEvent = false in every world, whatever the gate would answer
    and whatever was shown before; nothing else changes. *)
Theorem hide_always_hides_immediately (w : World) :
  trace (exec hide w) =
    trace w ++ [host_hide {| hide_isTouchEvent := false; immediately := true |}] /\
  this (exec hide w) = this w /\
  listeners (exec hide w) = listeners w.
Proof. repeat split. Qed.

(** C4: when the selection is absent or holds no element, or the host
    service reports itself disabled, [addTooltip] leaves the world as it
    was: no listener is registered (and nothing is called). *)
Theorem addTooltip_without_target_is_noop
    (selection : option (list Element)) (d : Delegates) (reload : option bool)
    (w : World) :
  selection = None \/ selection = Some [] \/
    enabled (visualHostTooltipService w) = false ->
  exec (addTooltip selection d reload) w = w /\
  listeners (exec (addTooltip selection d reload) w) = listeners w.
Proof.
  intros H.
  assert (E : exec (addTooltip selection d reload) w = w).
  { destruct selection as [sel|]; [|reflexivity].
    unfold addTooltip.
    cbv [mbind mret Eff_bind Eff_ret bind ret exec service_enabled get_this].
    destruct (enabled (visualHostTooltipService w)) eqn:En; simpl negb; cbv iota.
    - destruct H as [H|[H|H]]; [discriminate H| |discriminate H].
      injection H as ->. destruct w; reflexivity.
    - reflexivity. }
  rewrite E. split; reflexivity.
Qed.

(** * Further properties of the listeners *)

(** Splitting membership in a short explicit list of calls. *)
Ltac in_calls H :=
  repeat (apply elem_of_cons in H as [H|H]; [try subst|]);
  try (apply elem_of_nil in H; destruct H).

(** X1: a mouse-out on an attached element always calls the host's hide,
    not immediately and not as a touch event, whatever the button state of
    the event and whatever the touch handle holds; neither delegate is
    asked. *)
Theorem mouseout_always_hides_later
    (w : World) (node : Element) (e : Event) :
  type e = "mouseout" ->
  listeners w !! (node, "mouseout.tooltip") = Some mouseout_tooltip ->
  added w (exec (dispatchEvent node e) w) =
    [host_hide {| hide_isTouchEvent := false; immediately := false |}] /\
  only_trace w (exec (dispatchEvent node e) w).
Proof.
  intros Hty Hb.
  rewrite (exec_dispatchEvent_bound node e "mouseout" _ w Hty Hb). simpl.
  destruct (on_mouseout_run w) as [Hframe Htr].
  split; [exact (added_app _ _ _ Htr) | exact Hframe].
Qed.

(** X2: a mouse-over that passes the gate, with content from the info
    delegate, asks the info delegate and then the identity delegate once
    each on the same arguments, and calls show once: at the client position
    of the root source event relative to the root element captured by
    [addTooltip], not as a touch event, with the content as the delegate
    gave it. *)
Theorem mouseover_with_content_shows
    (w : World) (node rootNode : Element) (d : Delegates) (e : Event)
    (items : list VisualTooltipDataItem) :
  type e = "mouseover" ->
  listeners w !! (node, "mouseover.tooltip") = Some (mouseover_tooltip rootNode d) ->
  canDisplayTooltip (this w) e = true ->
  (forall args, fst (makeTooltipEventArgs e rootNode true false w) = Some args ->
                getTooltipInfoDelegate d args = Some items) ->
  exists args,
    fst (makeTooltipEventArgs e rootNode true false w) = Some args /\
    added w (exec (dispatchEvent node e) w) =
      [asked_info args; asked_identity args;
       host_show
         {| req_coordinates :=
              Some [clientX (d3_eventSource e)
                      - left (getBoundingClientRect (document w rootNode))
                      - clientLeft (document w rootNode);
                    clientY (d3_eventSource e)
                      - top (getBoundingClientRect (document w rootNode))
                      - clientTop (document w rootNode)]%float;
            req_isTouchEvent := false;
            dataItems := Some items;
            identities := match getDataPointIdentity d args with
                          | Some s => [s]
                          | None => []
                          end |}].
Proof.
  intros Hty Hb Hgate Hinfo.
  rewrite (exec_dispatchEvent_bound node e "mouseover" _ w Hty Hb). simpl.
  destruct (on_mouseover_run rootNode d e w _ eq_refl) as [_ Htr].
  rewrite (added_app _ _ _ Htr), Hgate, (Hinfo _ eq_refl).
  eexists. split; reflexivity.
Qed.

(** X3: in a reachable world, a mouse-over or mouse-move that reports a
    pressed button does nothing at all: no delegate is asked, the host is
    not called, the world is as before. *)
Theorem pressed_button_silences_over_and_move
    (w : World) (node : Element) (e : Event) (b : Z) :
  reachable w ->
  type e = "mouseover" \/ type e = "mousemove" ->
  buttons e = Some b -> b <> 0 ->
  exec (dispatchEvent node e) w = w.
Proof.
  intros Hr Hty Hb Hne. unfold exec, dispatchEvent.
  destruct (listeners w !! (node, type e +:+ ".tooltip")) as [l|] eqn:El;
    [|reflexivity].
  pose proof (reachable_well_bound w Hr _ _ _ El) as Hname.
  assert (Hgate : canDisplayTooltip (this w) e = false).
  { unfold canDisplayTooltip. rewrite Hb.
    destruct (Z.eqb_spec b 0) as [E|_]; [contradiction|reflexivity]. }
  destruct l as [rootNode d| |rootNode d reload]; simpl.
  - unfold on_mouseover. eff. rewrite Hgate. reflexivity.
  - destruct Hty as [E|E]; rewrite E in Hname; discriminate Hname.
  - unfold on_mousemove. eff. rewrite Hgate. reflexivity.
Qed.

(** X4: a mouse-move that passes the gate on an element attached with the
    reload flag true asks the info delegate first. On null it stops there:
    no move call and the identity delegate is not asked. Otherwise it asks
    the identity delegate and calls move with the fresh content. *)
Theorem mousemove_with_reload
    (w : World) (node rootNode : Element) (d : Delegates) (e : Event) :
  type e = "mousemove" ->
  listeners w !! (node, "mousemove.tooltip") =
    Some (mousemove_tooltip rootNode d (Some true)) ->
  canDisplayTooltip (this w) e = true ->
  exists args,
    fst (makeTooltipEventArgs e rootNode true false w) = Some args /\
    added w (exec (dispatchEvent node e) w) =
      match getTooltipInfoDelegate d args with
      | None => [asked_info args]
      | Some items =>
          [asked_info args; asked_identity args;
           host_move {| req_coordinates := coordinates args;
                        req_isTouchEvent := false;
                        dataItems := Some items;
                        identities := match getDataPointIdentity d args with
                                      | Some s => [s]
                                      | None => []
                                      end |}]
      end.
Proof.
  intros Hty Hb Hgate.
  rewrite (exec_dispatchEvent_bound node e "mousemove" _ w Hty Hb).
  cbn [runListener].
  destruct (on_mousemove_run rootNode d (Some true) e w _ eq_refl) as [_ Htr].
  rewrite (added_app _ _ _ Htr), Hgate.
  eexists. split; [rewrite makeTooltipEventArgs_run; reflexivity|].
  match goal with |- context [getTooltipInfoDelegate d ?a] =>
    destruct (getTooltipInfoDelegate d a) end; reflexivity.
Qed.

(** * Further properties of [addTooltip] *)

Lemma foldr_insert_lookup (sel : list Element) (name name' : string) (l : Listener)
    (m : gmap (Element * string) Listener) (node : Element) :
  foldr (fun el m => <[(el, name) := l]> m) m sel !! (node, name') =
  if decide (node ∈ sel /\ name' = name) then Some l else m !! (node, name').
Proof.
  induction sel as [|el sel IH]; cbn [foldr].
  - rewrite decide_False; [reflexivity|]. intros [H _]. inversion H.
  - rewrite lookup_insert, IH.
    repeat case_decide; try reflexivity; exfalso;
      repeat match goal with
             | H : _ /\ _ |- _ => destruct H
             | H : (_, _) = (_, _) |- _ => injection H as -> ->
             | H : _ ∈ _ :: _ |- _ => apply elem_of_cons in H as [->|H]
             end;
      first [ congruence
            | match goal with
              | H : ¬ _ |- _ =>
                  solve [apply H; repeat split; try congruence;
                         (left + right + idtac); eauto]
              end ].
Qed.

(** The table of listeners after an [addTooltip] that passed its guard. *)
Lemma addTooltip_lookup (sel : list Element) (d : Delegates) (reload : option bool)
    (w : World) (node : Element) (name : string) :
  enabled (visualHostTooltipService w) = true ->
  listeners (exec (addTooltip (Some sel) d reload) w) !! (node, name) =
  if decide (node ∈ sel) then
    if decide (name = "mousemove.tooltip") then
      Some (mousemove_tooltip (rootElement (this w)) d reload)
    else if decide (name = "mouseout.tooltip") then Some mouseout_tooltip
    else if decide (name = "mouseover.tooltip") then
      Some (mouseover_tooltip (rootElement (this w)) d)
    else listeners w !! (node, name)
  else listeners w !! (node, name).
Proof.
  intros Hen. rewrite (addTooltip_enabled sel d reload w Hen).
  unfold exec, selection_on. simpl. rewrite !foldr_insert_lookup.
  repeat case_decide; try reflexivity; exfalso; intuition congruence.
Qed.

(** X5: binding again replaces, it does not add. After an [addTooltip] on
    a selection, a second [addTooltip] on a selection that contains the
    first leaves exactly the world the second call alone would leave: no
    closure of the first call survives. *)
Theorem addTooltip_rebinding_replaces
    (sel1 sel2 : list Element) (d1 d2 : Delegates) (r1 r2 : option bool)
    (w : World) :
  enabled (visualHostTooltipService w) = true ->
  (forall node, node ∈ sel1 -> node ∈ sel2) ->
  exec (addTooltip (Some sel2) d2 r2) (exec (addTooltip (Some sel1) d1 r1) w) =
  exec (addTooltip (Some sel2) d2 r2) w.
Proof.
  intros Hen Hsub.
  assert (Hen1 : enabled (visualHostTooltipService
                            (exec (addTooltip (Some sel1) d1 r1) w)) = true).
  { rewrite (addTooltip_enabled sel1 d1 r1 w Hen). exact Hen. }
  assert (Hl : listeners (exec (addTooltip (Some sel2) d2 r2)
                            (exec (addTooltip (Some sel1) d1 r1) w)) =
               listeners (exec (addTooltip (Some sel2) d2 r2) w)).
  { apply map_eq. intros [node name].
    rewrite (addTooltip_lookup sel2 d2 r2 _ node name Hen1).
    rewrite (addTooltip_lookup sel2 d2 r2 w node name Hen).
    rewrite (addTooltip_lookup sel1 d1 r1 w node name Hen).
    rewrite (addTooltip_enabled sel1 d1 r1 w Hen).
    unfold exec, selection_on. simpl.
    repeat case_decide; try reflexivity;
      match goal with H : ¬ (_ ∈ sel2) |- _ => contradiction H end;
      apply Hsub; assumption. }
  revert Hl.
  rewrite (addTooltip_enabled sel2 d2 r2 _ Hen1).
  rewrite (addTooltip_enabled sel2 d2 r2 w Hen).
  rewrite (addTooltip_enabled sel1 d1 r1 w Hen).
  unfold exec, selection_on. simpl. intros ->. reflexivity.
Qed.

(** X6: [addTooltip] itself calls neither the host's show, move or hide nor
    a delegate, and writes nothing but listeners: whatever its arguments,
    the trace, the wrapper object, the page and the service are as before. *)
Theorem addTooltip_only_binds
    (selection : option (list Element)) (d : Delegates) (reload : option bool)
    (w : World) :
  trace (exec (addTooltip selection d reload) w) = trace w /\
  this (exec (addTooltip selection d reload) w) = this w /\
  document (exec (addTooltip selection d reload) w) = document w /\
  visualHostTooltipService (exec (addTooltip selection d reload) w) =
    visualHostTooltipService w.
Proof.
  destruct selection as [sel|]; [|repeat split].
  destruct (enabled (visualHostTooltipService w)) eqn:En.
  - rewrite (addTooltip_enabled sel d reload w En). repeat split.
  - unfold addTooltip, exec, mbind, Eff_bind, bind, service_enabled.
    rewrite En. repeat split.
Qed.

(** X7: an [addTooltip] that passes its guard leaves, on every element of
    the selection, its three closures under the three names of the
    [tooltip] namespace, each with the root element and the delegates of
    this call; every other name and every other element keeps the listener
    it had. *)
Theorem addTooltip_table
    (sel : list Element) (d : Delegates) (reload : option bool) (w : World)
    (node : Element) (name : string) :
  enabled (visualHostTooltipService w) = true ->
  (node ∈ sel ->
     listeners (exec (addTooltip (Some sel) d reload) w) !! (node, "mouseover.tooltip")
       = Some (mouseover_tooltip (rootElement (this w)) d) /\
     listeners (exec (addTooltip (Some sel) d reload) w) !! (node, "mouseout.tooltip")
       = Some mouseout_tooltip /\
     listeners (exec (addTooltip (Some sel) d reload) w) !! (node, "mousemove.tooltip")
       = Some (mousemove_tooltip (rootElement (this w)) d reload)) /\
  (node ∉ sel \/
   (name <> "mouseover.tooltip" /\ name <> "mouseout.tooltip" /\
    name <> "mousemove.tooltip") ->
     listeners (exec (addTooltip (Some sel) d reload) w) !! (node, name)
       = listeners w !! (node, name)).
Proof.
  intros Hen. split.
  - intros Hin. rewrite !(addTooltip_lookup sel d reload w node _ Hen).
    repeat split; repeat case_decide;
      first [reflexivity | discriminate | contradiction].
  - intros H. rewrite (addTooltip_lookup sel d reload w node name Hen).
    repeat case_decide; try reflexivity; exfalso; intuition congruence.
Qed.

(** * What the listeners never read *)

Lemma run_step (ops : list Op) (o : Op) (w : World) :
  run (o :: ops) w = run ops (step w o).
Proof. reflexivity. Qed.

Lemma step_with_delay (z : Z) (w : World) (o : Op) :
  step (with_delay z w) o = with_delay z (step w o).
Proof.
  destruct o as [selection d reload| |node e|doc|s]; try reflexivity.
  - destruct selection as [sel|]; [|reflexivity].
    unfold step, addTooltip, exec, with_delay. eff. simpl.
    destruct (enabled (visualHostTooltipService w)); reflexivity.
  - unfold step, exec, dispatchEvent. simpl.
    destruct (listeners w !! (node, type e +:+ ".tooltip")) as [l|];
      [|reflexivity].
    destruct l as [rootNode d| |rootNode d reload]; simpl.
    + unfold on_mouseover, canDisplayTooltip. eff. simpl.
      destruct (buttons e) as [b|], (handleTouchTimeoutId (this w));
        simpl; try reflexivity;
        try (destruct (negb (negb (b =? 0))); simpl; try reflexivity);
        match goal with |- context [getTooltipInfoDelegate d ?a] =>
          destruct (getTooltipInfoDelegate d a) end; reflexivity.
    + reflexivity.
    + unfold on_mousemove, canDisplayTooltip. eff. simpl.
      destruct (buttons e) as [b|], (handleTouchTimeoutId (this w));
        simpl; try reflexivity;
        try (destruct (negb (negb (b =? 0))); simpl; try reflexivity);
        destruct reload as [[|]|]; simpl; try reflexivity;
        match goal with |- context [getTooltipInfoDelegate d ?a] =>
          destruct (getTooltipInfoDelegate d a) end; reflexivity.
Qed.

Lemma run_with_delay (z : Z) (ops : list Op) (w : World) :
  run ops (with_delay z w) = with_delay z (run ops w).
Proof.
  revert w. induction ops as [|o ops IH]; intros w; [reflexivity|].
  rewrite !run_step, step_with_delay. apply IH.
Qed.

(** X8: the touch delay given to [createTooltipServiceWrapper] is stored
    and never read. Two wrappers that differ only in that delay (given or
    left to the default of 1000) make the same calls and hold the same
    listeners after any sequence of operations. *)
Theorem handleTouchDelay_is_never_read
    (doc : Element -> Node) (tooltipService : ITooltipService) (root : Element)
    (delay1 delay2 : option Z) (ops : list Op) :
  trace (run ops (newWorld doc tooltipService root delay1)) =
    trace (run ops (newWorld doc tooltipService root delay2)) /\
  listeners (run ops (newWorld doc tooltipService root delay1)) =
    listeners (run ops (newWorld doc tooltipService root delay2)).
Proof.
  change (newWorld doc tooltipService root delay1)
    with (with_delay (default DefaultHandleTouchDelay delay1)
            (newWorld doc tooltipService root delay2)).
  rewrite run_with_delay. split; reflexivity.
Qed.

(** X9: the host's [enabled()] is asked by [addTooltip] only. Once the
    closures are bound, a change of the service state (a host that turns
    itself off) does not silence them: an event delivered after the change
    adds the calls it would have added before it, and delivery commutes
    with the change. *)
Theorem listeners_ignore_the_service_state
    (w : World) (s : ITooltipService) (node : Element) (e : Event) :
  step (step w (op_service s)) (op_dispatch node e) =
    step (step w (op_dispatch node e)) (op_service s) /\
  added (step w (op_service s)) (step (step w (op_service s)) (op_dispatch node e)) =
    added w (step w (op_dispatch node e)).
Proof.
  assert (E : step (step w (op_service s)) (op_dispatch node e) =
              step (step w (op_dispatch node e)) (op_service s)).
  { unfold step, exec, dispatchEvent. simpl.
    destruct (listeners w !! (node, type e +:+ ".tooltip")) as [l|];
      [|reflexivity].
    destruct l as [rootNode d| |rootNode d reload]; simpl.
    - unfold on_mouseover. eff. simpl.
      destruct (canDisplayTooltip (this w) e); simpl; [|reflexivity].
      match goal with |- context [getTooltipInfoDelegate d ?a] =>
        destruct (getTooltipInfoDelegate d a) end; reflexivity.
    - reflexivity.
    - unfold on_mousemove. eff. simpl.
      destruct (canDisplayTooltip (this w) e); simpl; [|reflexivity].
      destruct reload as [[|]|]; simpl; try reflexivity.
      match goal with |- context [getTooltipInfoDelegate d ?a] =>
        destruct (getTooltipInfoDelegate d a) end; reflexivity. }
  split; [exact E|]. rewrite E. reflexivity.
Qed.

(** * Invariants of the trace *)

Lemma listener_calls_well_formed (l : Listener) (e : Event) (w : World) (c : Call) :
  c ∈ added w (exec (runListener l e) w) -> well_formed_call c.
Proof.
  intros H. destruct l as [rootNode d| |rootNode d reload]; cbn [runListener] in H.
  - destruct (on_mouseover_run rootNode d e w _ eq_refl) as [_ Htr].
    rewrite (added_app _ _ _ Htr) in H. clear Htr.
    destruct (canDisplayTooltip (this w) e); [|in_calls H].
    apply elem_of_cons in H as [->|H]; [split; [reflexivity|exact I]|].
    match type of H with context [getTooltipInfoDelegate d ?a] =>
      destruct (getTooltipInfoDelegate d a) as [items|] end; [|in_calls H].
    apply elem_of_cons in H as [->|H]; [split; [reflexivity|exact I]|].
    apply list_elem_of_singleton in H as ->.
    split; [reflexivity|]. split; [split|]; simpl.
    + eexists. eexists. reflexivity.
    + match goal with |- context [getDataPointIdentity d ?a] =>
        destruct (getDataPointIdentity d a) end; simpl; lia.
    + eexists. reflexivity.
  - destruct (on_mouseout_run w) as [_ Htr].
    rewrite (added_app _ _ _ Htr) in H.
    apply list_elem_of_singleton in H as ->. split; [reflexivity|exact I].
  - destruct (on_mousemove_run rootNode d reload e w _ eq_refl) as [_ Htr].
    rewrite (added_app _ _ _ Htr) in H. clear Htr.
    destruct (canDisplayTooltip (this w) e); [|in_calls H].
    assert (Hmove : forall items c',
      c' ∈ [asked_identity
              {| data := datum (document w (target e));
                 coordinates := getCoordinates (document w) e rootNode true;
                 elementCoordinates := getCoordinates (document w) e (target e) true;
                 context := target e; isTouchEvent := false |};
            host_move
              {| req_coordinates := getCoordinates (document w) e rootNode true;
                 req_isTouchEvent := false;
                 dataItems := items;
                 identities :=
                   match getDataPointIdentity d
                     {| data := datum (document w (target e));
                        coordinates := getCoordinates (document w) e rootNode true;
                        elementCoordinates :=
                          getCoordinates (document w) e (target e) true;
                        context := target e; isTouchEvent := false |}
                   with Some s => [s] | None => [] end |}] ->
      well_formed_call c').
    { intros items c' Hc.
      apply elem_of_cons in Hc as [->|Hc]; [split; [reflexivity|exact I]|].
      apply list_elem_of_singleton in Hc as ->.
      split; [reflexivity|]. split; simpl.
      - eexists. eexists. reflexivity.
      - match goal with |- context [getDataPointIdentity d ?a] =>
          destruct (getDataPointIdentity d a) end; simpl; lia. }
    destruct reload as [[|]|]; try exact (Hmove _ _ H).
    apply elem_of_cons in H as [->|H]; [split; [reflexivity|exact I]|].
    match type of H with context [getTooltipInfoDelegate d ?a] =>
      destruct (getTooltipInfoDelegate d a) as [items|] end; [|in_calls H].
    exact (Hmove _ _ H).
Qed.

Lemma step_calls_well_formed (w : World) (o : Op) :
  exists cs, trace (step w o) = trace w ++ cs /\ Forall well_formed_call cs.
Proof.
  destruct o as [selection d reload| |node e|doc|s]; simpl.
  - exists []. split; [|constructor]. rewrite app_nil_r.
    destruct selection as [sel|]; [|reflexivity].
    destruct (enabled (visualHostTooltipService w)) eqn:En.
    + rewrite (addTooltip_enabled sel d reload w En). reflexivity.
    + unfold addTooltip, exec, mbind, Eff_bind, bind, service_enabled.
      rewrite En. reflexivity.
  - eexists. split; [reflexivity|]. repeat constructor.
  - destruct (listeners w !! (node, type e +:+ ".tooltip")) as [l|] eqn:El.
    + rewrite (exec_dispatchEvent_bound node e (type e) l w eq_refl El).
      destruct (runListener_run l e w) as [_ [cs Hcs]]. exists cs.
      split; [exact Hcs|].
      apply Forall_forall. intros c Hc.
      apply (listener_calls_well_formed l e w c).
      rewrite (added_app _ _ _ Hcs). exact Hc.
    + exists []. unfold exec, dispatchEvent. rewrite El.
      split; [symmetry; apply app_nil_r|constructor].
  - exists []. split; [symmetry; apply app_nil_r|constructor].
  - exists []. split; [symmetry; apply app_nil_r|constructor].
Qed.

Lemma reachable_calls_well_formed (w : World) :
  reachable w -> Forall well_formed_call (trace w).
Proof.
  induction 1 as [doc svc root delay|w o _ IH]; [constructor|].
  destruct (step_calls_well_formed w o) as [cs [-> Hcs]].
  apply Forall_app. split; assumption.
Qed.

(** X10: the wrapper never reports a touch. In every reachable world each
    call in the trace, to the host (show, move, hide) or to a delegate,
    carries isTouchEvent = false. *)
Theorem no_call_is_flagged_as_touch (w : World) (c : Call) :
  reachable w -> c ∈ trace w -> touch_flag c = false.
Proof.
  intros Hr Hc.
  pose proof (reachable_calls_well_formed w Hr) as Hall.
  rewrite Forall_forall in Hall. exact (proj1 (Hall c Hc)).
Qed.

(** X11: the host's show is never called without content or without a
    position. In every reachable world each show request in the trace has
    its data items present and coordinates of exactly two numbers. *)
Theorem show_requests_are_complete (w : World) (r : TooltipRequest) :
  reachable w -> host_show r ∈ trace w ->
  (exists items, dataItems r = Some items) /\
  (exists x y, req_coordinates r = Some [x; y]).
Proof.
  intros Hr Hc.
  pose proof (reachable_calls_well_formed w Hr) as Hall.
  rewrite Forall_forall in Hall.
  destruct (Hall _ Hc) as [_ [[Hxy _] Hitems]]. split; assumption.
Qed.

(** X12: in every reachable world each show or move request in the trace
    names at most one identity, and each move request has coordinates of
    exactly two numbers. *)
Theorem requests_name_at_most_one_identity (w : World) (r : TooltipRequest) :
  reachable w -> host_show r ∈ trace w \/ host_move r ∈ trace w ->
  (length (identities r) <= 1)%nat /\
  (exists x y, req_coordinates r = Some [x; y]).
Proof.
  intros Hr Hc.
  pose proof (reachable_calls_well_formed w Hr) as Hall.
  rewrite Forall_forall in Hall.
  destruct Hc as [Hc|Hc].
  - destruct (Hall _ Hc) as [_ [[Hxy Hid] _]]. split; assumption.
  - destruct (Hall _ Hc) as [_ [Hxy Hid]]. split; assumption.
Qed.

(** * One event at a time *)

Lemma length_append (s t : string) :
  String.length (s +:+ t) = (String.length s + String.length t)%nat.
Proof. induction s as [|c s IH]; simpl; [reflexivity|]. rewrite IH. reflexivity. Qed.

Lemma append_cancel_r (s1 s2 t : string) : s1 +:+ t = s2 +:+ t -> s1 = s2.
Proof.
  revert s2. induction s1 as [|c1 s1 IH]; intros [|c2 s2] H; simpl in H.
  - reflexivity.
  - apply (f_equal String.length) in H. cbn [String.length] in H.
    rewrite !length_append in H. cbn [String.length] in H. lia.
  - apply (f_equal String.length) in H. cbn [String.length] in H.
    rewrite !length_append in H. cbn [String.length] in H. lia.
  - injection H as -> H. f_equal. apply IH. exact H.
Qed.

Lemma added_nothing (w : World) : added w w = [].
Proof. apply added_app. symmetry. apply app_nil_r. Qed.

(** X13: in a reachable world each kind of call has one kind of event
    behind it. Delivering an event leads to show only if it is a mouse-over
    that passes the gate, to move only if it is a mouse-move that passes
    the gate, to a hide (never an immediate one) only if it is a mouse-out,
    and a delegate is asked only on a mouse-over or mouse-move that passes
    the gate. *)
Theorem calls_by_event_type (w : World) (node : Element) (e : Event) (c : Call) :
  reachable w -> c ∈ added w (exec (dispatchEvent node e) w) ->
  match c with
  | host_show _ => type e = "mouseover" /\ canDisplayTooltip (this w) e = true
  | host_move _ => type e = "mousemove" /\ canDisplayTooltip (this w) e = true
  | host_hide o => type e = "mouseout" /\ immediately o = false
  | asked_info _ | asked_identity _ =>
      (type e = "mouseover" \/ type e = "mousemove") /\
      canDisplayTooltip (this w) e = true
  end.
Proof.
  intros Hr H.
  destruct (listeners w !! (node, type e +:+ ".tooltip")) as [l|] eqn:El.
  - pose proof (reachable_well_bound w Hr _ _ _ El) as Hname.
    rewrite (exec_dispatchEvent_bound node e (type e) l w eq_refl El) in H.
    destruct l as [rootNode d| |rootNode d reload]; cbn [runListener] in H;
      cbn [name_of] in Hname.
    + apply (append_cancel_r (type e) "mouseover" ".tooltip") in Hname.
      destruct (on_mouseover_run rootNode d e w _ eq_refl) as [_ Htr].
      rewrite (added_app _ _ _ Htr) in H. clear Htr.
      destruct (canDisplayTooltip (this w) e); [|in_calls H].
      apply elem_of_cons in H as [->|H]; [auto|].
      match type of H with context [getTooltipInfoDelegate d ?a] =>
        destruct (getTooltipInfoDelegate d a) as [items|] end; [|in_calls H].
      in_calls H; auto.
    + apply (append_cancel_r (type e) "mouseout" ".tooltip") in Hname.
      destruct (on_mouseout_run w) as [_ Htr].
      rewrite (added_app _ _ _ Htr) in H. in_calls H. auto.
    + apply (append_cancel_r (type e) "mousemove" ".tooltip") in Hname.
      destruct (on_mousemove_run rootNode d reload e w _ eq_refl) as [_ Htr].
      rewrite (added_app _ _ _ Htr) in H. clear Htr.
      destruct (canDisplayTooltip (this w) e); [|in_calls H].
      destruct reload as [[|]|]; cbv zeta in H.
      * apply elem_of_cons in H as [->|H]; [auto|].
        match type of H with context [getTooltipInfoDelegate d ?a] =>
          destruct (getTooltipInfoDelegate d a) as [items|] end; [|in_calls H].
        in_calls H; auto.
      * in_calls H; auto.
      * in_calls H; auto.
  - unfold exec, dispatchEvent in H. rewrite El in H. simpl in H.
    rewrite added_nothing in H. in_calls H.
Qed.

(** One run of one listener: at most one host call, at most three calls. *)
Lemma delivery_adds_at_most_one_host_call (w : World) (node : Element) (e : Event) :
  (length (List.filter is_host_call (added w (exec (dispatchEvent node e) w))) <= 1)%nat /\
  (length (added w (exec (dispatchEvent node e) w)) <= 3)%nat.
Proof.
  destruct (listeners w !! (node, type e +:+ ".tooltip")) as [l|] eqn:El.
  - rewrite (exec_dispatchEvent_bound node e (type e) l w eq_refl El).
    destruct l as [rootNode d| |rootNode d reload]; cbn [runListener].
    + destruct (on_mouseover_run rootNode d e w _ eq_refl) as [_ Htr].
      rewrite (added_app _ _ _ Htr). clear Htr.
      destruct (canDisplayTooltip (this w) e); [|simpl; lia].
      match goal with |- context [getTooltipInfoDelegate d ?a] =>
        destruct (getTooltipInfoDelegate d a) end; simpl; lia.
    + destruct (on_mouseout_run w) as [_ Htr].
      rewrite (added_app _ _ _ Htr). simpl. lia.
    + destruct (on_mousemove_run rootNode d reload e w _ eq_refl) as [_ Htr].
      rewrite (added_app _ _ _ Htr). clear Htr.
      destruct (canDisplayTooltip (this w) e); [|simpl; lia].
      destruct reload as [[|]|]; cbv zeta; try (simpl; lia).
      match goal with |- context [getTooltipInfoDelegate d ?a] =>
        destruct (getTooltipInfoDelegate d a) end; simpl; lia.
  - unfold exec, dispatchEvent. rewrite El. simpl.
    rewrite added_nothing. simpl. lia.
Qed.

Lemma dispatchEvent_extends (w : World) (node : Element) (e : Event) :
  exists cs, trace (exec (dispatchEvent node e) w) = trace w ++ cs.
Proof.
  destruct (listeners w !! (node, type e +:+ ".tooltip")) as [l|] eqn:El.
  - rewrite (exec_dispatchEvent_bound node e (type e) l w eq_refl El).
    apply (runListener_run l e w).
  - exists []. unfold exec, dispatchEvent. rewrite El. symmetry. apply app_nil_r.
Qed.

Lemma propagate_extends (path : list Element) (e : Event) (w : World) :
  exists cs, trace (propagate path e w) = trace w ++ cs.
Proof.
  revert w. induction path as [|node path IH]; intros w.
  - exists []. symmetry. apply app_nil_r.
  - destruct (dispatchEvent_extends w node e) as [a Ha].
    destruct (IH (exec (dispatchEvent node e) w)) as [b Hb].
    exists (a ++ b). cbn [propagate fold_left] in *.
    unfold propagate in Hb. rewrite Hb, Ha. symmetry. apply app_assoc.
Qed.

Lemma added_through (w w1 w2 : World) :
  (exists a, trace w1 = trace w ++ a) -> (exists b, trace w2 = trace w1 ++ b) ->
  added w w2 = added w w1 ++ added w1 w2.
Proof.
  intros [a Ha] [b Hb].
  rewrite (added_app w w1 a Ha), (added_app w1 w2 b Hb).
  apply added_app. rewrite Hb, Ha. symmetry. apply app_assoc.
Qed.

(** X14: a mouse event bubbles, and each element it is delivered to may
    have its own closure bound. An event delivered along a path of
    elements adds at most one host call (show, move or hide) for each
    element of the path, and at most three calls for each; delivered to
    one element only, at most one host call. *)
Theorem one_host_call_per_delivery (w : World) (path : list Element) (e : Event) :
  (length (List.filter is_host_call (added w (propagate path e w)))
     <= length path)%nat /\
  (length (added w (propagate path e w)) <= 3 * length path)%nat.
Proof.
  revert w. induction path as [|node path IH]; intros w.
  - cbn [propagate fold_left]. rewrite added_nothing. simpl. lia.
  - change (propagate (node :: path) e w)
      with (propagate path e (exec (dispatchEvent node e) w)).
    rewrite (added_through w (exec (dispatchEvent node e) w)
               (propagate path e (exec (dispatchEvent node e) w))
               (dispatchEvent_extends w node e)
               (propagate_extends path e _)).
    rewrite List.filter_app, !length_app.
    destruct (delivery_adds_at_most_one_host_call w node e) as [H1 H3].
    destruct (IH (exec (dispatchEvent node e) w)) as [IH1 IH3].
    cbn [length]. lia.
Qed.

Lemma dispatchEvent_added_frame (w w' : World) (node : Element) (e : Event) :
  only_trace w w' ->
  added w' (exec (dispatchEvent node e) w') = added w (exec (dispatchEvent node e) w).
Proof.
  intros (Hthis & Hdoc & Hl & _).
  destruct (listeners w !! (node, type e +:+ ".tooltip")) as [l|] eqn:El.
  - assert (El' : listeners w' !! (node, type e +:+ ".tooltip") = Some l)
      by (rewrite Hl; exact El).
    rewrite (exec_dispatchEvent_bound node e (type e) l w eq_refl El).
    rewrite (exec_dispatchEvent_bound node e (type e) l w' eq_refl El').
    destruct l as [rootNode d| |rootNode d reload]; cbn [runListener].
    + destruct (on_mouseover_run rootNode d e w _ eq_refl) as [_ Htr].
      destruct (on_mouseover_run rootNode d e w' _ eq_refl) as [_ Htr'].
      rewrite (added_app _ _ _ Htr), (added_app _ _ _ Htr'), Hthis, Hdoc.
      reflexivity.
    + destruct (on_mouseout_run w) as [_ Htr].
      destruct (on_mouseout_run w') as [_ Htr'].
      rewrite (added_app _ _ _ Htr), (added_app _ _ _ Htr'). reflexivity.
    + destruct (on_mousemove_run rootNode d reload e w _ eq_refl) as [_ Htr].
      destruct (on_mousemove_run rootNode d reload e w' _ eq_refl) as [_ Htr'].
      rewrite (added_app _ _ _ Htr), (added_app _ _ _ Htr'), Hthis, Hdoc.
      reflexivity.
  - assert (El' : listeners w' !! (node, type e +:+ ".tooltip") = None)
      by (rewrite Hl; exact El).
    unfold exec, dispatchEvent. rewrite El, El'. simpl.
    rewrite !added_nothing. reflexivity.
Qed.

Lemma dispatchEvent_only_trace (w : World) (node : Element) (e : Event) :
  only_trace w (exec (dispatchEvent node e) w).
Proof.
  unfold exec, dispatchEvent.
  destruct (listeners w !! (node, type e +:+ ".tooltip")) as [l|].
  - apply (runListener_run l e w).
  - repeat split.
Qed.

(** X15: the listeners keep no memory. The calls an event adds are the
    same whether or not another event, on any element, or a [hide] came
    just before it: a move does not need an over to have succeeded, and an
    over after an out shows again. *)
Theorem events_are_handled_independently
    (w : World) (node1 node2 : Element) (e1 e2 : Event) :
  added (step w (op_dispatch node1 e1))
        (step (step w (op_dispatch node1 e1)) (op_dispatch node2 e2)) =
    added w (step w (op_dispatch node2 e2)) /\
  added (step w op_hide) (step (step w op_hide) (op_dispatch node2 e2)) =
    added w (step w (op_dispatch node2 e2)).
Proof.
  split; cbn [step]; apply dispatchEvent_added_frame.
  - apply dispatchEvent_only_trace.
  - repeat split.
Qed.

(** * The arguments of the delegates *)


(** * Invariants of the table of listeners *)

Lemma step_listeners (w : World) (o : Op) (node : Element) (name : string)
    (l : Listener) :
  listeners (step w o) !! (node, name) = Some l ->
  listeners w !! (node, name) = Some l \/
  (name = name_of l /\
   (captured_root l = None \/ captured_root l = Some (rootElement (this w)))).
Proof.
  destruct o as [selection d reload| |n e|doc|s]; cbn [step]; auto.
  - destruct selection as [sel|]; [|auto].
    destruct (enabled (visualHostTooltipService w)) eqn:En.
    + rewrite (addTooltip_lookup sel d reload w node name En).
      repeat case_decide; auto; intros [= <-]; subst name; right; simpl; auto.
    + unfold addTooltip, exec, mbind, Eff_bind, bind, service_enabled.
      rewrite En. auto.
  - destruct (dispatchEvent_only_trace w n e) as (_ & _ & -> & _). auto.
Qed.

(** X17: every closure bound by a wrapper resolves positions against the
    root element the wrapper was constructed with. In every reachable world
    a mouse-over or mouse-move closure in the table has captured the
    wrapper's [rootElement]. *)
Theorem closures_capture_the_root
    (w : World) (node : Element) (name : string) (l : Listener) (rootNode : Element) :
  reachable w ->
  listeners w !! (node, name) = Some l -> captured_root l = Some rootNode ->
  rootNode = rootElement (this w).
Proof.
  intros Hr. revert node name l rootNode.
  induction Hr as [doc svc root delay|w o _ IH]; intros node name l rootNode Hl Hc.
  - simpl in Hl. rewrite lookup_empty in Hl. discriminate Hl.
  - rewrite step_keeps_this.
    destruct (step_listeners w o node name l Hl) as [Hold|[_ [Hn|Hs]]].
    + exact (IH node name l rootNode Hold Hc).
    + congruence.
    + congruence.
Qed.

(** X18: in a reachable world only three types of event have a listener.
    Delivering an event of any other type (a click, a touch-start, a
    touch-end, a mouse-down) leaves the world as it was: no call, no change
    of the wrapper. *)
Theorem other_events_do_nothing (w : World) (node : Element) (e : Event) :
  reachable w ->
  type e <> "mouseover" -> type e <> "mouseout" -> type e <> "mousemove" ->
  exec (dispatchEvent node e) w = w.
Proof.
  intros Hr Hover Hout Hmove. unfold exec, dispatchEvent.
  destruct (listeners w !! (node, type e +:+ ".tooltip")) as [l|] eqn:El;
    [|reflexivity].
  pose proof (reachable_well_bound w Hr _ _ _ El) as Hname.
  destruct l; cbn [name_of] in Hname.
  - apply (append_cancel_r (type e) "mouseover" ".tooltip") in Hname. contradiction.
  - apply (append_cancel_r (type e) "mouseout" ".tooltip") in Hname. contradiction.
  - apply (append_cancel_r (type e) "mousemove" ".tooltip") in Hname. contradiction.
Qed.

End Wrapper.

Arguments this {_ _ _} _.
Arguments document {_ _ _} _ _.
Arguments listeners {_ _ _} _.
Arguments visualHostTooltipService {_ _ _} _.
Arguments trace {_ _ _} _.
Arguments coordinates {_} _.
Arguments elementCoordinates {_} _.
Arguments req_coordinates {_ _} _.
Arguments dataItems {_ _} _.
Arguments identities {_ _} _.
Arguments getTooltipInfoDelegate {_ _ _} _ _.
Arguments getDataPointIdentity {_ _ _} _ _.
Arguments host_show {_ _ _} _.
Arguments host_move {_ _ _} _.
Arguments host_hide {_ _ _} _.
Arguments asked_info {_ _ _} _.
Arguments asked_identity {_ _ _} _.
Arguments mouseover_tooltip {_ _ _} _ _.
Arguments mouseout_tooltip {_ _ _}.
Arguments mousemove_tooltip {_ _ _} _ _ _.
Arguments op_addTooltip {_ _ _} _ _ _.
Arguments op_hide {_ _ _}.
Arguments op_dispatch {_ _ _} _ _.
Arguments exec {_ _ _ _} _ _.
Arguments added {_ _ _} _ _.
Arguments makeTooltipEventArgs {_ _ _} _ _ _ _ _ _.
Arguments addTooltip {_ _ _} _ _ _ _.
Arguments hide {_ _ _} _.
Arguments dispatchEvent {_ _ _} _ _ _ _.
Arguments step {_ _ _} _ _ _.
Arguments run {_ _ _} _ _ _.
Arguments newWorld {_ _ _} _ _ _ _.
Arguments reachable {_ _ _} _ _.
Arguments examplePage {_} _ _.
Arguments exampleDelegates {_ _ _} _ _.
Arguments exampleWorld {_ _ _} _ _ _.
Arguments only_trace {_ _ _} _ _.
Arguments mouseover_with_args {_ _ _} _ _ _.
Arguments propagate {_ _ _} _ _ _ _.
Arguments getBoundingClientRect {_} _.
Arguments clientLeft {_} _.
Arguments clientTop {_} _.
Arguments touch_flag {_ _ _} _.
Arguments is_host_call {_ _ _} _.
Arguments captured_root {_ _ _} _.

(** * The page of the example, run

    One bar carrying no datum of interest ([unit]), tooltip items as
    strings, identities as numbers, and no touch points. *)

Local Abbreviation noTouches := (fun (_ : Element) (_ : Event) => @nil (list float)).
Local Abbreviation Given info id := (@exampleDelegates unit string nat info id).
Local Abbreviation Attached d reload := (@exampleWorld unit string nat tt d reload).
Local Abbreviation deliver e w := (exec (dispatchEvent noTouches 1%nat e) w).
Local Abbreviation argsAt3040 :=
  {| data := tt; coordinates := Some [30; 40]%float; elementCoordinates := Some [30; 40]%float;
     context := 1%nat; isTouchEvent := false |}.

(** C1: the wrapper binds no touch listener and never sets the handle, so
    a mouse-over 5 ms after a touch-end (the delay is 1000 ms) passes the
    gate and the host's show is called. *)
Theorem touch_then_mouseover_still_shows :
  timeStamp (exampleEvent "mouseover" 15 (Some 0))
    - timeStamp (exampleEvent "touchend" 10 None)
    < handleTouchDelay (this (Attached (Given (Some ["Sales: 10"]) (Some 7%nat)) None)) /\
  added
    (Attached (Given (Some ["Sales: 10"]) (Some 7%nat)) None)
    (run noTouches
       [op_dispatch 1%nat (exampleEvent "touchstart" 0 None);
        op_dispatch 1%nat (exampleEvent "touchend" 10 None);
        op_dispatch 1%nat (exampleEvent "mouseover" 15 (Some 0))]
       (Attached (Given (Some ["Sales: 10"]) (Some 7%nat)) None))
  = [asked_info argsAt3040;
     asked_identity argsAt3040;
     host_show
       {| req_coordinates := Some [30; 40]%float; req_isTouchEvent := false;
          dataItems := Some ["Sales: 10"]; identities := [7%nat] |}].
Proof. split; vm_compute; reflexivity. Qed.

(** ** The theorems above, at the example page *)

Ltac on_page :=
  vm_compute; repeat first [reflexivity | constructor].



Lemma handleTouchTimeoutId_stays_null_witness :
  reachable noTouches
    (run noTouches
       [op_dispatch 1%nat (exampleEvent "touchstart" 0 None);
        op_dispatch 1%nat (exampleEvent "touchend" 10 None)]
       (Attached (Given (Some ["Sales: 10"]) None) None)) /\
  handleTouchTimeoutId
    (this (run noTouches
             [op_dispatch 1%nat (exampleEvent "touchstart" 0 None);
              op_dispatch 1%nat (exampleEvent "touchend" 10 None)]
             (Attached (Given (Some ["Sales: 10"]) None) None))) = None.
Proof.
  assert (H : reachable noTouches
                (run noTouches
                   [op_dispatch 1%nat (exampleEvent "touchstart" 0 None);
                    op_dispatch 1%nat (exampleEvent "touchend" 10 None)]
                   (Attached (Given (Some ["Sales: 10"]) None) None))).
  { apply reachable_run.
    exact (reachable_step unit string nat noTouches _
             (op_addTooltip (Some [1%nat]) (Given (Some ["Sales: 10"]) None) None)
             (reachable_new unit string nat noTouches
                (examplePage tt) {| enabled := true |} 0%nat None)). }
  split; [exact H|].
  exact (proj1 (handleTouchTimeoutId_stays_null unit string nat noTouches _ H)).
Defined.

Lemma addTooltip_without_target_is_noop_witness :
  (Some (@nil Element) = None \/ Some (@nil Element) = Some [] \/
   enabled (visualHostTooltipService
              (@newWorld unit string nat (examplePage tt) {| enabled := true |}
                 0%nat None)) = false) /\
  listeners
    (exec (addTooltip (Some []) (Given (Some ["Sales: 10"]) None) None)
       (newWorld (examplePage tt) {| enabled := true |} 0%nat None))
  = listeners (@newWorld unit string nat (examplePage tt) {| enabled := true |}
                 0%nat None).
Proof.
  assert (H : Some (@nil Element) = None \/ Some (@nil Element) = Some [] \/
              enabled (visualHostTooltipService
                         (@newWorld unit string nat (examplePage tt)
                            {| enabled := true |} 0%nat None)) = false)
    by (right; left; reflexivity).
  split; [exact H|].
  exact (proj2 (addTooltip_without_target_is_noop unit string nat
                  (Some []) (Given (Some ["Sales: 10"]) None) None _ H)).
Defined.

Lemma mousemove_without_reload_moves_witness :
  type (exampleEvent "mousemove" 20 (Some 0)) = "mousemove" /\
  listeners (Attached (Given None (Some 7%nat)) (Some false))
    !! (1%nat, "mousemove.tooltip")
    = Some (mousemove_tooltip 0%nat (Given None (Some 7%nat)) (Some false)) /\
  (Some false = Some false \/ Some false = @None bool) /\
  canDisplayTooltip (this (Attached (Given None (Some 7%nat)) (Some false)))
    (exampleEvent "mousemove" 20 (Some 0)) = true /\
  exists args xy,
    fst (makeTooltipEventArgs noTouches (exampleEvent "mousemove" 20 (Some 0))
           0%nat true false (Attached (Given None (Some 7%nat)) (Some false)))
      = Some args /\
    coordinates args = Some xy /\
    added (Attached (Given None (Some 7%nat)) (Some false))
      (deliver (exampleEvent "mousemove" 20 (Some 0))
         (Attached (Given None (Some 7%nat)) (Some false)))
    = [asked_identity args;
       host_move {| req_coordinates := Some xy;
                    req_isTouchEvent := false;
                    dataItems := None;
                    identities :=
                      match getDataPointIdentity (Given None (Some 7%nat)) args with
                      | Some s => [s]
                      | None => []
                      end |}].
Proof.
  assert (H1 : type (exampleEvent "mousemove" 20 (Some 0)) = "mousemove")
    by reflexivity.
  assert (H2 : listeners (Attached (Given None (Some 7%nat)) (Some false))
                 !! (1%nat, "mousemove.tooltip")
               = Some (mousemove_tooltip 0%nat (Given None (Some 7%nat)) (Some false)))
    by on_page.
  assert (H3 : Some false = Some false \/ Some false = @None bool)
    by (left; reflexivity).
  assert (H4 : canDisplayTooltip
                 (this (Attached (Given None (Some 7%nat)) (Some false)))
                 (exampleEvent "mousemove" 20 (Some 0)) = true)
    by reflexivity.
  split; [exact H1|]. split; [exact H2|]. split; [exact H3|]. split; [exact H4|].
  exact (mousemove_without_reload_moves unit string nat noTouches
           _ _ _ _ _ _ H1 H2 H3 H4).
Defined.

Lemma mouseover_null_info_never_shows_witness :
  type (exampleEvent "mouseover" 15 (Some 0)) = "mouseover" /\
  listeners (Attached (Given None (Some 7%nat)) None) !! (1%nat, "mouseover.tooltip")
    = Some (mouseover_tooltip 0%nat (Given None (Some 7%nat))) /\
  (forall args,
     fst (makeTooltipEventArgs noTouches (exampleEvent "mouseover" 15 (Some 0))
            0%nat true false (Attached (Given None (Some 7%nat)) None)) = Some args ->
     getTooltipInfoDelegate (Given None (Some 7%nat)) args = None) /\
  (forall c,
     c ∈ added (Attached (Given None (Some 7%nat)) None)
           (deliver (exampleEvent "mouseover" 15 (Some 0))
              (Attached (Given None (Some 7%nat)) None)) ->
     exists a, c = asked_info a).
Proof.
  assert (H1 : type (exampleEvent "mouseover" 15 (Some 0)) = "mouseover")
    by reflexivity.
  assert (H2 : listeners (Attached (Given None (Some 7%nat)) None)
                 !! (1%nat, "mouseover.tooltip")
               = Some (mouseover_tooltip 0%nat (Given None (Some 7%nat))))
    by on_page.
  assert (H3 : forall args,
             fst (makeTooltipEventArgs noTouches
                    (exampleEvent "mouseover" 15 (Some 0))
                    0%nat true false (Attached (Given None (Some 7%nat)) None))
               = Some args ->
             getTooltipInfoDelegate (Given None (Some 7%nat)) args = None)
    by (intros args _; reflexivity).
  split; [exact H1|]. split; [exact H2|]. split; [exact H3|].
  exact (mouseover_null_info_never_shows unit string nat noTouches
           _ _ _ _ _ H1 H2 H3).
Defined.

Lemma mouseover_show_identities_witness :
  type (exampleEvent "mouseover" 15 (Some 0)) = "mouseover" /\
  listeners (Attached (Given (Some ["Sales: 10"]) None) None)
    !! (1%nat, "mouseover.tooltip")
    = Some (mouseover_tooltip 0%nat (Given (Some ["Sales: 10"]) None)) /\
  host_show {| req_coordinates := Some [30; 40]%float; req_isTouchEvent := false;
               dataItems := Some ["Sales: 10"]; identities := [] |}
    ∈ added (Attached (Given (Some ["Sales: 10"]) None) None)
        (deliver (exampleEvent "mouseover" 15 (Some 0))
           (Attached (Given (Some ["Sales: 10"]) None) None)) /\
  exists args,
    fst (makeTooltipEventArgs noTouches (exampleEvent "mouseover" 15 (Some 0))
           0%nat true false (Attached (Given (Some ["Sales: 10"]) None) None))
      = Some args /\
    (getDataPointIdentity (Given (Some ["Sales: 10"]) None) args = None ->
     identities
       {| req_coordinates := Some [30; 40]%float; req_isTouchEvent := false;
          dataItems := Some ["Sales: 10"]; identities := @nil nat |} = []) /\
    (forall s,
       getDataPointIdentity (Given (Some ["Sales: 10"]) None) args = Some s ->
       identities
         {| req_coordinates := Some [30; 40]%float; req_isTouchEvent := false;
            dataItems := Some ["Sales: 10"]; identities := @nil nat |} = [s]).
Proof.
  assert (H1 : type (exampleEvent "mouseover" 15 (Some 0)) = "mouseover")
    by reflexivity.
  assert (H2 : listeners (Attached (Given (Some ["Sales: 10"]) None) None)
                 !! (1%nat, "mouseover.tooltip")
               = Some (mouseover_tooltip 0%nat (Given (Some ["Sales: 10"]) None)))
    by on_page.
  assert (H3 : host_show {| req_coordinates := Some [30; 40]%float;
                            req_isTouchEvent := false;
                            dataItems := Some ["Sales: 10"]; identities := [] |}
                 ∈ added (Attached (Given (Some ["Sales: 10"]) None) None)
                     (deliver (exampleEvent "mouseover" 15 (Some 0))
                        (Attached (Given (Some ["Sales: 10"]) None) None)))
    by on_page.
  split; [exact H1|]. split; [exact H2|]. split; [exact H3|].
  exact (mouseover_show_identities unit string nat noTouches
           _ _ _ _ _ _ H1 H2 H3).
Defined.

(** ** The further properties, at the example page *)

Local Abbreviation overE := (exampleEvent "mouseover" 15 (Some 0)).
Local Abbreviation bothGiven := (Given (Some ["Sales: 10"]) (Some 7%nat)).
Local Abbreviation shown :=
  {| req_coordinates := Some [30; 40]%float; req_isTouchEvent := false;
     dataItems := Some ["Sales: 10"]; identities := [7%nat] |}.

Lemma example_reachable (d : Delegates unit string nat) (reload : option bool)
    (ops : list (Op unit string nat)) :
  reachable noTouches (run noTouches ops (Attached d reload)).
Proof.
  apply reachable_run.
  exact (reachable_step unit string nat noTouches _
           (op_addTooltip (Some [1%nat]) d reload)
           (reachable_new unit string nat noTouches
              (examplePage tt) {| enabled := true |} 0%nat None)).
Qed.

Lemma mouseout_always_hides_later_witness :
  type (exampleEvent "mouseout" 30 (Some 1)) = "mouseout" /\
  listeners (Attached bothGiven None) !! (1%nat, "mouseout.tooltip")
    = Some mouseout_tooltip /\
  added (Attached bothGiven None)
    (deliver (exampleEvent "mouseout" 30 (Some 1)) (Attached bothGiven None))
  = [host_hide {| hide_isTouchEvent := false; immediately := false |}].
Proof.
  assert (H1 : type (exampleEvent "mouseout" 30 (Some 1)) = "mouseout")
    by reflexivity.
  assert (H2 : listeners (Attached bothGiven None) !! (1%nat, "mouseout.tooltip")
               = Some mouseout_tooltip) by on_page.
  split; [exact H1|]. split; [exact H2|].
  exact (proj1 (mouseout_always_hides_later unit string nat noTouches _ _ _ H1 H2)).
Defined.

Lemma mouseover_with_content_shows_witness :
  type overE = "mouseover" /\
  listeners (Attached bothGiven None) !! (1%nat, "mouseover.tooltip")
    = Some (mouseover_tooltip 0%nat bothGiven) /\
  canDisplayTooltip (this (Attached bothGiven None)) overE = true /\
  (forall args,
     fst (makeTooltipEventArgs noTouches overE 0%nat true false
            (Attached bothGiven None)) = Some args ->
     getTooltipInfoDelegate bothGiven args = Some ["Sales: 10"]) /\
  exists args,
    fst (makeTooltipEventArgs noTouches overE 0%nat true false
           (Attached bothGiven None)) = Some args /\
    added (Attached bothGiven None) (deliver overE (Attached bothGiven None)) =
      [asked_info args; asked_identity args;
       host_show
         {| req_coordinates :=
              Some [clientX (d3_eventSource overE)
                      - left (getBoundingClientRect
                                (document (Attached bothGiven None) 0%nat))
                      - clientLeft (document (Attached bothGiven None) 0%nat);
                    clientY (d3_eventSource overE)
                      - top (getBoundingClientRect
                               (document (Attached bothGiven None) 0%nat))
                      - clientTop (document (Attached bothGiven None) 0%nat)]%float;
            req_isTouchEvent := false;
            dataItems := Some ["Sales: 10"];
            identities := match getDataPointIdentity bothGiven args with
                          | Some s => [s]
                          | None => []
                          end |}].
Proof.
  assert (H1 : type overE = "mouseover") by reflexivity.
  assert (H2 : listeners (Attached bothGiven None) !! (1%nat, "mouseover.tooltip")
               = Some (mouseover_tooltip 0%nat bothGiven)) by on_page.
  assert (H3 : canDisplayTooltip (this (Attached bothGiven None)) overE = true)
    by reflexivity.
  assert (H4 : forall args,
             fst (makeTooltipEventArgs noTouches overE 0%nat true false
                    (Attached bothGiven None)) = Some args ->
             getTooltipInfoDelegate bothGiven args = Some ["Sales: 10"])
    by (intros args _; reflexivity).
  split; [exact H1|]. split; [exact H2|]. split; [exact H3|]. split; [exact H4|].
  exact (mouseover_with_content_shows unit string nat noTouches
           _ _ _ _ _ _ H1 H2 H3 H4).
Defined.

Lemma pressed_button_silences_over_and_move_witness :
  reachable noTouches (Attached bothGiven None) /\
  (type (exampleEvent "mousemove" 20 (Some 1)) = "mouseover" \/
   type (exampleEvent "mousemove" 20 (Some 1)) = "mousemove") /\
  buttons (exampleEvent "mousemove" 20 (Some 1)) = Some 1 /\ 1 <> 0 /\
  deliver (exampleEvent "mousemove" 20 (Some 1)) (Attached bothGiven None)
    = Attached bothGiven None.
Proof.
  assert (H1 : reachable noTouches (Attached bothGiven None))
    by exact (example_reachable bothGiven None []).
  assert (H2 : type (exampleEvent "mousemove" 20 (Some 1)) = "mouseover" \/
               type (exampleEvent "mousemove" 20 (Some 1)) = "mousemove")
    by (right; reflexivity).
  assert (H3 : buttons (exampleEvent "mousemove" 20 (Some 1)) = Some 1)
    by reflexivity.
  assert (H4 : 1 <> 0) by lia.
  split; [exact H1|]. split; [exact H2|]. split; [exact H3|]. split; [exact H4|].
  exact (pressed_button_silences_over_and_move unit string nat noTouches
           _ 1%nat _ _ H1 H2 H3 H4).
Defined.

Lemma mousemove_with_reload_witness :
  type (exampleEvent "mousemove" 20 None) = "mousemove" /\
  listeners (Attached bothGiven (Some true)) !! (1%nat, "mousemove.tooltip")
    = Some (mousemove_tooltip 0%nat bothGiven (Some true)) /\
  canDisplayTooltip (this (Attached bothGiven (Some true)))
    (exampleEvent "mousemove" 20 None) = true /\
  exists args,
    fst (makeTooltipEventArgs noTouches (exampleEvent "mousemove" 20 None)
           0%nat true false (Attached bothGiven (Some true))) = Some args /\
    added (Attached bothGiven (Some true))
      (deliver (exampleEvent "mousemove" 20 None) (Attached bothGiven (Some true)))
    = match getTooltipInfoDelegate bothGiven args with
      | None => [asked_info args]
      | Some items =>
          [asked_info args; asked_identity args;
           host_move {| req_coordinates := coordinates args;
                        req_isTouchEvent := false;
                        dataItems := Some items;
                        identities := match getDataPointIdentity bothGiven args with
                                      | Some s => [s]
                                      | None => []
                                      end |}]
      end.
Proof.
  assert (H1 : type (exampleEvent "mousemove" 20 None) = "mousemove")
    by reflexivity.
  assert (H2 : listeners (Attached bothGiven (Some true))
                 !! (1%nat, "mousemove.tooltip")
               = Some (mousemove_tooltip 0%nat bothGiven (Some true))) by on_page.
  assert (H3 : canDisplayTooltip (this (Attached bothGiven (Some true)))
                 (exampleEvent "mousemove" 20 None) = true) by reflexivity.
  split; [exact H1|]. split; [exact H2|]. split; [exact H3|].
  exact (mousemove_with_reload unit string nat noTouches _ _ _ _ _ H1 H2 H3).
Defined.

Lemma addTooltip_rebinding_replaces_witness :
  enabled (visualHostTooltipService
             (@newWorld unit string nat (examplePage tt) {| enabled := true |}
                0%nat None)) = true /\
  (forall node : Element, node ∈ [1%nat] -> node ∈ [1%nat; 2%nat]) /\
  exec (addTooltip (Some [1%nat; 2%nat]) bothGiven (Some true))
    (exec (addTooltip (Some [1%nat]) (Given None None) None)
       (newWorld (examplePage tt) {| enabled := true |} 0%nat None))
  = exec (addTooltip (Some [1%nat; 2%nat]) bothGiven (Some true))
      (newWorld (examplePage tt) {| enabled := true |} 0%nat None).
Proof.
  assert (H1 : enabled (visualHostTooltipService
                          (@newWorld unit string nat (examplePage tt)
                             {| enabled := true |} 0%nat None)) = true)
    by reflexivity.
  assert (H2 : forall node : Element, node ∈ [1%nat] -> node ∈ [1%nat; 2%nat]).
  { intros node H. apply list_elem_of_singleton in H. subst node.
    apply elem_of_cons. left. reflexivity. }
  split; [exact H1|]. split; [exact H2|].
  exact (addTooltip_rebinding_replaces unit string nat noTouches
           [1%nat] [1%nat; 2%nat] (Given None None) bothGiven None (Some true)
           _ H1 H2).
Defined.

Lemma addTooltip_table_witness :
  enabled (visualHostTooltipService
             (@newWorld unit string nat (examplePage tt) {| enabled := true |}
                0%nat None)) = true /\
  listeners
    (exec (addTooltip (Some [1%nat]) bothGiven None)
       (newWorld (examplePage tt) {| enabled := true |} 0%nat None))
    !! (2%nat, "mouseover.tooltip")
  = listeners (@newWorld unit string nat (examplePage tt) {| enabled := true |}
                 0%nat None) !! (2%nat, "mouseover.tooltip").
Proof.
  assert (H1 : enabled (visualHostTooltipService
                          (@newWorld unit string nat (examplePage tt)
                             {| enabled := true |} 0%nat None)) = true)
    by reflexivity.
  assert (H2 : 2%nat ∉ [1%nat]).
  { intros H. apply list_elem_of_singleton in H. discriminate H. }
  split; [exact H1|].
  exact (proj2 (addTooltip_table unit string nat noTouches [1%nat] bothGiven None _
                  2%nat "mouseover.tooltip" H1) (or_introl H2)).
Defined.

Lemma no_call_is_flagged_as_touch_witness :
  reachable noTouches
    (run noTouches [op_dispatch 1%nat overE] (Attached bothGiven None)) /\
  host_show shown
    ∈ trace (run noTouches [op_dispatch 1%nat overE] (Attached bothGiven None)) /\
  touch_flag (@host_show unit string nat shown) = false.
Proof.
  assert (H1 : reachable noTouches
                 (run noTouches [op_dispatch 1%nat overE] (Attached bothGiven None)))
    by exact (example_reachable bothGiven None [op_dispatch 1%nat overE]).
  assert (H2 : host_show shown
                 ∈ trace (run noTouches [op_dispatch 1%nat overE]
                            (Attached bothGiven None))) by on_page.
  split; [exact H1|]. split; [exact H2|].
  exact (no_call_is_flagged_as_touch unit string nat noTouches _ _ H1 H2).
Defined.

Lemma show_requests_are_complete_witness :
  reachable noTouches
    (run noTouches [op_dispatch 1%nat overE] (Attached bothGiven None)) /\
  @host_show unit string nat shown
    ∈ trace (run noTouches [op_dispatch 1%nat overE] (Attached bothGiven None)) /\
  (exists items, dataItems shown = Some items) /\
  (exists x y, req_coordinates shown = Some [x; y]).
Proof.
  assert (H1 : reachable noTouches
                 (run noTouches [op_dispatch 1%nat overE] (Attached bothGiven None)))
    by exact (example_reachable bothGiven None [op_dispatch 1%nat overE]).
  assert (H2 : host_show shown
                 ∈ trace (run noTouches [op_dispatch 1%nat overE]
                            (Attached bothGiven None))) by on_page.
  split; [exact H1|]. split; [exact H2|].
  exact (show_requests_are_complete unit string nat noTouches _ _ H1 H2).
Defined.

Lemma requests_name_at_most_one_identity_witness :
  reachable noTouches
    (run noTouches [op_dispatch 1%nat overE] (Attached bothGiven None)) /\
  (@host_show unit string nat shown
     ∈ trace (run noTouches [op_dispatch 1%nat overE] (Attached bothGiven None)) \/
   @host_move unit string nat shown
     ∈ trace (run noTouches [op_dispatch 1%nat overE] (Attached bothGiven None))) /\
  (length (identities shown) <= 1)%nat /\
  (exists x y, req_coordinates shown = Some [x; y]).
Proof.
  assert (H1 : reachable noTouches
                 (run noTouches [op_dispatch 1%nat overE] (Attached bothGiven None)))
    by exact (example_reachable bothGiven None [op_dispatch 1%nat overE]).
  assert (H2 : @host_show unit string nat shown
                 ∈ trace (run noTouches [op_dispatch 1%nat overE]
                            (Attached bothGiven None)) \/
               @host_move unit string nat shown
                 ∈ trace (run noTouches [op_dispatch 1%nat overE]
                            (Attached bothGiven None))) by (left; on_page).
  split; [exact H1|]. split; [exact H2|].
  exact (requests_name_at_most_one_identity unit string nat noTouches _ _ H1 H2).
Defined.

Lemma calls_by_event_type_witness :
  reachable noTouches (Attached bothGiven None) /\
  host_show shown
    ∈ added (Attached bothGiven None) (deliver overE (Attached bothGiven None)) /\
  type overE = "mouseover" /\
  canDisplayTooltip (this (Attached bothGiven None)) overE = true.
Proof.
  assert (H1 : reachable noTouches (Attached bothGiven None))
    by exact (example_reachable bothGiven None []).
  assert (H2 : host_show shown
                 ∈ added (Attached bothGiven None)
                     (deliver overE (Attached bothGiven None))) by on_page.
  split; [exact H1|]. split; [exact H2|].
  exact (calls_by_event_type unit string nat noTouches _ 1%nat overE
           (host_show shown) H1 H2).
Defined.

Lemma closures_capture_the_root_witness :
  reachable noTouches (Attached bothGiven None) /\
  listeners (Attached bothGiven None) !! (1%nat, "mouseover.tooltip")
    = Some (mouseover_tooltip 0%nat bothGiven) /\
  captured_root (mouseover_tooltip 0%nat bothGiven) = Some 0%nat /\
  0%nat = rootElement (this (Attached bothGiven None)).
Proof.
  assert (H1 : reachable noTouches (Attached bothGiven None))
    by exact (example_reachable bothGiven None []).
  assert (H2 : listeners (Attached bothGiven None) !! (1%nat, "mouseover.tooltip")
               = Some (mouseover_tooltip 0%nat bothGiven)) by on_page.
  assert (H3 : captured_root (mouseover_tooltip 0%nat bothGiven) = Some 0%nat)
    by reflexivity.
  split; [exact H1|]. split; [exact H2|]. split; [exact H3|].
  exact (closures_capture_the_root unit string nat noTouches _ _ _ _ _ H1 H2 H3).
Defined.

Lemma other_events_do_nothing_witness :
  reachable noTouches (Attached bothGiven None) /\
  type (exampleEvent "click" 40 (Some 0)) <> "mouseover" /\
  type (exampleEvent "click" 40 (Some 0)) <> "mouseout" /\
  type (exampleEvent "click" 40 (Some 0)) <> "mousemove" /\
  deliver (exampleEvent "click" 40 (Some 0)) (Attached bothGiven None)
    = Attached bothGiven None.
Proof.
  assert (H1 : reachable noTouches (Attached bothGiven None))
    by exact (example_reachable bothGiven None []).
  assert (H2 : type (exampleEvent "click" 40 (Some 0)) <> "mouseover")
    by discriminate.
  assert (H3 : type (exampleEvent "click" 40 (Some 0)) <> "mouseout")
    by discriminate.
  assert (H4 : type (exampleEvent "click" 40 (Some 0)) <> "mousemove")
    by discriminate.
  split; [exact H1|]. split; [exact H2|]. split; [exact H3|]. split; [exact H4|].
  exact (other_events_do_nothing unit string nat noTouches _ 1%nat _ H1 H2 H3 H4).
Defined.

(** The bound of one host call per element is reached: with the closures
    bound on a bar and on a mark inside it, a mouse-out on the mark that
    bubbles to the bar calls hide twice. *)
Lemma bubbling_mouseout_hides_twice :
  added
    (exec (addTooltip (Some [1%nat; 2%nat]) bothGiven None)
       (newWorld (examplePage tt) {| enabled := true |} 0%nat None))
    (propagate noTouches [2%nat; 1%nat]
       (MkEvent "mouseout" 2%nat 130%float 90%float (Some 0) 30 None)
       (exec (addTooltip (Some [1%nat; 2%nat]) bothGiven None)
          (newWorld (examplePage tt) {| enabled := true |} 0%nat None)))
  = [host_hide {| hide_isTouchEvent := false; immediately := false |};
     host_hide {| hide_isTouchEvent := false; immediately := false |}].
Proof. vm_compute. reflexivity. Qed.

(** ** Positions on fractional boxes *)

Local Abbreviation fractionalPage :=
  (fun n : Element =>
     match n with
     | O => {| getBoundingClientRect :=
                 {| left := 0x1.999999999999ap-4%float; top := 0%float |};
               clientLeft := 0%float; clientTop := 0%float; datum := tt |}
     | S _ => {| getBoundingClientRect := {| left := 8%float; top := 0%float |};
                 clientLeft := 1%float; clientTop := 0%float; datum := tt |}
     end).

(** Positions are rounded as the browser rounds them. Against a root box
    at left 0.1 the client x 130 resolves to 129.90000000000001; its
    difference to the position against a target box at left 8 with client
    left 1 is 8.9000000000000057, which is not the distance
    8.9000000000000004 between the two boxes. *)
Lemma positions_are_rounded_as_binary64 :
  exists x y ex ey,
    getCoordinates unit noTouches fractionalPage overE 0%nat true = Some [x; y] /\
    getCoordinates unit noTouches fractionalPage overE 1%nat true = Some [ex; ey] /\
    x = 0x1.03ccccccccccdp+7%float /\ ex = 121%float /\
    (x - ex)%float <> (8 + 1 - (0x1.999999999999ap-4 + 0))%float.
Proof.
  eexists. eexists. eexists. eexists.
  split; [reflexivity|]. split; [reflexivity|].
  split; [vm_compute; reflexivity|]. split; [vm_compute; reflexivity|].
  vm_compute. discriminate.
Qed.
